(** * TasksService (src/modules/tasks/tasks.service.ts)

    A shallow embedding of the task service: the task table and the
    notification queue are explicit state, every service method is a
    computation in a small state-and-exception monad over that state.

    Scope of the model.
    - Calls run one at a time and to completion ([await] is sequencing).
    - JavaScript numbers reaching [findAll] are integers or [NaN].
    - TypeORM over PostgreSQL and BullMQ are collaborators outside the
      repository; the parts the service calls are modelled in [Repository]
      and [TaskQueue].  What they leave open (the order in which a page
      loaded by key comes back, the reading of a limit of 0) is a parameter
      of the store, [Driver]. *)

From Stdlib Require Import Ascii String List ZArith Bool Lia Permutation.
Import ListNotations.
Open Scope string_scope.

(** ** Values *)

(** A JavaScript number as far as pagination needs it. *)
Inductive number : Type :=
| NaN
| Num (z : Z).

(** [v ? _ : _] on an optional number: [undefined], [NaN] and [0] are falsy. *)
Definition truthy_number (v : option number) : bool :=
  match v with
  | Some (Num z) => negb (z =? 0)%Z
  | _ => false
  end.

(** [v ? _ : _] on an optional string: [undefined] and the empty string are falsy. *)
Definition truthy (v : option string) : bool :=
  match v with
  | Some s => negb (s =? "")
  | None => false
  end.

Definition num_sub (a b : number) : number :=
  match a, b with
  | Num x, Num y => Num (x - y)
  | _, _ => NaN
  end.

Definition num_mul (a b : number) : number :=
  match a, b with
  | Num x, Num y => Num (x * y)
  | _, _ => NaN
  end.

(** [Number(x)] applied to a value that already is a number. *)
Definition Number (x : number) : number := x.

(** [Number(x)] applied to a raw SQL aggregate: [NULL] becomes [0]. *)
Definition Number_raw (x : option Z) : Z :=
  match x with
  | Some z => z
  | None => 0%Z
  end.

(** ** Entities and DTOs *)

Module User.
(** Modelled from the spec: the User entity is not under src/; a task
    refers to its owning user, of which only the key matters here. *)
Record t : Type := mk { id : string; name : string }.
End User.

Module Task.
(** Modelled from the spec: entities/task.entity.ts is not under src/; the
    fields are those of the spec's data model.  [status] and [priority]
    are TypeScript string enums, strings at run time.  [user] is the
    relation, present only on an entity loaded with it. *)
Record t : Type := mk {
  id : string;
  title : string;
  description : string;
  status : string;
  priority : string;
  dueDate : option string;
  userId : string;
  user : option User.t
}.

Definition set_title (v : string) (x : t) : t :=
  mk (id x) v (description x) (status x) (priority x) (dueDate x) (userId x) (user x).
Definition set_description (v : string) (x : t) : t :=
  mk (id x) (title x) v (status x) (priority x) (dueDate x) (userId x) (user x).
Definition set_status (v : string) (x : t) : t :=
  mk (id x) (title x) (description x) v (priority x) (dueDate x) (userId x) (user x).
Definition set_priority (v : string) (x : t) : t :=
  mk (id x) (title x) (description x) (status x) v (dueDate x) (userId x) (user x).
Definition set_dueDate (v : string) (x : t) : t :=
  mk (id x) (title x) (description x) (status x) (priority x) (Some v) (userId x) (user x).
Definition set_user (v : option User.t) (x : t) : t :=
  mk (id x) (title x) (description x) (status x) (priority x) (dueDate x) (userId x) v.
End Task.

Module CreateTaskDto.
(** Modelled from the spec: dto/create-task.dto.ts is not under src/; the
    caller supplies title, description, priority and dueDate (and the
    owner), the status is the column default. *)
Record t : Type := mk {
  title : string;
  description : string;
  priority : string;
  dueDate : option string;
  userId : string
}.
End CreateTaskDto.

Module UpdateTaskDto.
(** The five optional fields [update] reads; [dueDate] is the date as it
    arrives in the request body, a string. *)
Record t : Type := mk {
  title : option string;
  description : option string;
  status : option string;
  priority : option string;
  dueDate : option string
}.
End UpdateTaskDto.

Module Job.
(** A job handed to [taskQueue.add(name, { taskId, status })]. *)
Record t : Type := mk { name : string; taskId : string; status : string }.
End Job.

(** ** State *)

(** What the store and its client library leave open. *)
Record Driver : Type := mkDriver {
  returned_rank : string -> nat;
    (* where an entity of the given key comes among the entities of a page
       loaded by key: the store promises no order, smaller ranks come first *)
  limit_zero_unbounded : bool
    (* whether [take(0)] is read as "no limit" (older client versions) or
       sent to the database as LIMIT 0 *)
}.

Record Store : Type := mkStore {
  tasks : list Task.t;      (* the task table, in the order of an unordered scan *)
  users : list User.t;
  driver : Driver
}.

Record Queue : Type := mkQueue {
  jobs : list Job.t;        (* jobs the queue accepted *)
  requested : list Job.t;   (* every job passed to [add], accepted or not *)
  accepting : bool          (* whether the broker accepts jobs *)
}.

Record World : Type := mkWorld { store : Store; queue : Queue }.

(** ** Computations *)

Inductive Exception : Type :=
| NotFoundException (message : string)
| TypeError
| MustBeEntityError
| TypeORMError
| QueryFailedError.

Inductive Outcome (A : Type) : Type :=
| Returned (a : A)
| Thrown (e : Exception).
Arguments Returned {A} a.
Arguments Thrown {A} e.

Definition M (A : Type) : Type := World -> Outcome A * World.

Definition ret {A} (a : A) : M A := fun w => (Returned a, w).
Definition throw {A} (e : Exception) : M A := fun w => (Thrown e, w).
Definition bind {A B} (m : M A) (k : A -> M B) : M B :=
  fun w =>
    match m w with
    | (Returned a, w') => k a w'
    | (Thrown e, w') => (Thrown e, w')
    end.

Declare Scope svc_scope.
Delimit Scope svc_scope with svc.
Notation "x <- m ;; k" := (bind m (fun x => k))
  (at level 61, m at next level, right associativity) : svc_scope.
Notation "m ;;; k" := (bind m (fun _ => k))
  (at level 61, right associativity) : svc_scope.
Open Scope svc_scope.

(** Whether an outcome is the Not-Found signal of the HTTP layer. *)
Definition is_not_found {A} (o : Outcome A) : bool :=
  match o with
  | Thrown (NotFoundException _) => true
  | _ => false
  end.

(** ** The repository (TypeORM [Repository<Task>] and its query builder) *)

Module Repository.

Definition find_user (uid : string) (st : Store) : option User.t :=
  find (fun u => User.id u =? uid) (users st).

(** [relations: ['user']] and [leftJoinAndSelect('task.user', 'user')]:
    the entity comes back with its owner attached (left join: no owner
    when the key matches no user). *)
Definition with_user (st : Store) (row : Task.t) : Task.t :=
  Task.set_user (find_user (Task.userId row) st) row.

(** The row with primary key [k], if any. *)
Definition row_of (k : string) (st : Store) : option Task.t :=
  find (fun r => Task.id r =? k) (tasks st).

(** [findOne({ where: { id }, relations: ['user'] })]: [null] when no row matches. *)
Definition findOne (k : string) : M (option Task.t) :=
  fun w => (Returned (option_map (with_user (store w)) (row_of k (store w))), w).

(** What [create(dto)] followed by [save] inserts: the DTO's fields, the
    key the store generated and the status column's default. *)
Definition new_entity (newId defaultStatus : string) (dto : CreateTaskDto.t) : Task.t :=
  Task.mk newId (CreateTaskDto.title dto) (CreateTaskDto.description dto)
          defaultStatus (CreateTaskDto.priority dto) (CreateTaskDto.dueDate dto)
          (CreateTaskDto.userId dto) None.

Definition insert (e : Task.t) : M Task.t :=
  fun w =>
    (Returned e,
     mkWorld (mkStore (tasks (store w) ++ [Task.set_user None e]) (users (store w)) (driver (store w)))
             (queue w)).

(** The rows an UPDATE under [e]'s key writes. *)
Definition hits (e : Task.t) (r : Task.t) : bool := Task.id r =? Task.id e.

(** The table after the rows under [e]'s key were overwritten with [e]:
    the store writes a new version of each such row, and an unordered scan
    meets the new versions after the rows that were not written. *)
Definition written (e : Task.t) (rows : list Task.t) : list Task.t :=
  filter (fun r => negb (hits e r)) rows
  ++ map (fun _ => Task.set_user None e) (filter (hits e) rows).

(** [save(entity)] of an entity that carries a key: the row with that key
    is overwritten, and inserted when there is none; the entity itself is
    what [save] returns. *)
Definition save (e : Task.t) : M Task.t :=
  fun w =>
    match row_of (Task.id e) (store w) with
    | Some _ =>
        (Returned e,
         mkWorld (mkStore (written e (tasks (store w))) (users (store w)) (driver (store w)))
                 (queue w))
    | None => insert e w
    end.

(** [remove(entity)]: rejects what is not an entity ([null]), otherwise
    deletes the row with the entity's key. *)
Definition remove (e : option Task.t) : M unit :=
  fun w =>
    match e with
    | None => (Thrown MustBeEntityError, w)
    | Some t =>
        (Returned tt,
         mkWorld (mkStore (filter (fun r => negb (Task.id r =? Task.id t)) (tasks (store w)))
                          (users (store w)) (driver (store w)))
                 (queue w))
    end.

(** [query('SELECT * FROM tasks WHERE status = $1', [status])]: raw rows. *)
Definition query_by_status (s : string) : M (list Task.t) :=
  fun w => (Returned (filter (fun r => Task.status r =? s) (tasks (store w))), w).

(** *** Query builder *)

Inductive Cond : Type :=
| StatusEq (s : string)
| PriorityEq (p : string).

Definition holds (c : Cond) (r : Task.t) : bool :=
  match c with
  | StatusEq s => Task.status r =? s
  | PriorityEq p => Task.priority r =? p
  end.

Record QueryBuilder : Type := mkQB {
  wheres : list Cond;
  qskip : option Z;
  qtake : option Z;
  joinUser : bool
}.

Definition createQueryBuilder : QueryBuilder := mkQB [] None None false.

Definition andWhere (c : Cond) (q : QueryBuilder) : QueryBuilder :=
  mkQB (wheres q ++ [c]) (qskip q) (qtake q) (joinUser q).

(** [skip(n)] and [take(n)] leave the bound unset on [undefined] and
    throw on a value that is not a number. *)
Definition skip (n : option number) (q : QueryBuilder) : M QueryBuilder :=
  match n with
  | None => ret (mkQB (wheres q) None (qtake q) (joinUser q))
  | Some NaN => throw TypeORMError
  | Some (Num z) => ret (mkQB (wheres q) (Some z) (qtake q) (joinUser q))
  end.

Definition take (n : option number) (q : QueryBuilder) : M QueryBuilder :=
  match n with
  | None => ret (mkQB (wheres q) (qskip q) None (joinUser q))
  | Some NaN => throw TypeORMError
  | Some (Num z) => ret (mkQB (wheres q) (qskip q) (Some z) (joinUser q))
  end.

Definition leftJoinAndSelect_user (q : QueryBuilder) : QueryBuilder :=
  mkQB (wheres q) (qskip q) (qtake q) true.

Definition matches (q : QueryBuilder) (r : Task.t) : bool :=
  forallb (fun c => holds c r) (wheres q).

(** The largest LIMIT or OFFSET the database takes (a 64-bit integer). *)
Definition max_bigint : Z := 9223372036854775807.

(** Whether the database takes [z] as a LIMIT or OFFSET. *)
Definition in_bigint (z : Z) : bool := (0 <=? z)%Z && (z <=? max_bigint)%Z.

(** OFFSET: unset or zero skips nothing; the database rejects one that is
    negative or beyond a 64-bit integer. *)
Definition apply_skip (n : option Z) (rows : list Task.t) : option (list Task.t) :=
  match n with
  | None => Some rows
  | Some z => if in_bigint z then Some (skipn (Z.to_nat z) rows) else None
  end.

(** LIMIT: unset bounds nothing; the database rejects one that is negative
    or beyond a 64-bit integer; what 0 means is the driver's choice. *)
Definition apply_take (d : Driver) (n : option Z) (rows : list Task.t)
  : option (list Task.t) :=
  match n with
  | None => Some rows
  | Some z =>
      if in_bigint z
      then if (z =? 0)%Z
           then Some (if limit_zero_unbounded d then rows else [])
           else Some (firstn (Z.to_nat z) rows)
      else None
  end.

(** Sorting rows on a key, smallest first; rows of equal key keep their order. *)
Fixpoint place {K : Type} (le : K -> K -> bool) (key : Task.t -> K)
  (x : Task.t) (l : list Task.t) : list Task.t :=
  match l with
  | [] => [x]
  | y :: l' => if le (key x) (key y) then x :: l else y :: place le key x l'
  end.

Definition sort_on {K : Type} (le : K -> K -> bool) (key : Task.t -> K)
  (l : list Task.t) : list Task.t :=
  fold_right (place le key) [] l.

(** ORDER BY the primary key, ascending; keys are compared as character
    strings.  (Keys are unique in the table, so ranking rows is ranking
    keys.) *)
Definition by_key (rows : list Task.t) : list Task.t :=
  sort_on String.leb Task.id rows.

(** The entities of a page in the order the store hands them back. *)
Definition as_returned (st : Store) (rows : list Task.t) : list Task.t :=
  sort_on Nat.leb (fun r => returned_rank (driver st) (Task.id r)) rows.

Definition set_nonzero (n : option Z) : bool :=
  match n with
  | Some z => negb (z =? 0)%Z
  | None => false
  end.

(** With a join and a [skip] or [take] that is set and not 0, the query
    builder pages in two queries: the keys of the page, taken in ascending
    key order, then the entities under those keys, in no promised order.
    Otherwise it runs one query over the table as scanned. *)
Definition paginated (q : QueryBuilder) : bool :=
  joinUser q && (set_nonzero (qskip q) || set_nonzero (qtake q)).

Definition getMany (q : QueryBuilder) : M (list Task.t) :=
  fun w =>
    let rows := filter (matches q) (tasks (store w)) in
    let candidates := if paginated q then by_key rows else rows in
    match apply_skip (qskip q) candidates with
    | None => (Thrown QueryFailedError, w)
    | Some rest =>
        match apply_take (driver (store w)) (qtake q) rest with
        | None => (Thrown QueryFailedError, w)
        | Some page =>
            let entities := if paginated q then as_returned (store w) page else page in
            (Returned (if joinUser q then map (with_user (store w)) entities else entities),
             w)
        end
    end.

(** *** Aggregates of [findTasksStatistics] *)

(** [CASE WHEN c THEN 1 ELSE 0 END]. *)
Definition case_when (c : bool) : Z := if c then 1%Z else 0%Z.

(** [SUM(e)]: [NULL] over no rows. *)
Definition sql_sum (e : Task.t -> Z) (rows : list Task.t) : option Z :=
  match rows with
  | [] => None
  | _ => Some (fold_right (fun r acc => (e r + acc)%Z) 0%Z rows)
  end.

(** [COUNT( * )]. *)
Definition sql_count (rows : list Task.t) : option Z :=
  Some (Z.of_nat (length rows)).

Record RawStats : Type := mkRaw {
  raw_total : option Z;
  raw_completed : option Z;
  raw_inProgress : option Z;
  raw_pending : option Z;
  raw_highPriority : option Z
}.

Definition getRawOne_statistics : M RawStats :=
  fun w =>
    let rows := tasks (store w) in
    (Returned
       (mkRaw (sql_count rows)
              (sql_sum (fun r => case_when (Task.status r =? "COMPLETED")) rows)
              (sql_sum (fun r => case_when (Task.status r =? "IN_PROGRESS")) rows)
              (sql_sum (fun r => case_when (Task.status r =? "PENDING")) rows)
              (sql_sum (fun r => case_when (Task.priority r =? "HIGH")) rows)),
     w).

End Repository.

(** ** The queue (BullMQ [Queue]) *)

Module TaskQueue.

(** [add(name, data)] not awaited: the job is recorded as requested, it
    joins the queue when the broker accepts it, and a rejection of the
    returned promise reaches nobody. *)
Definition add (name taskId status : string) : M unit :=
  fun w =>
    let j := Job.mk name taskId status in
    let q := queue w in
    (Returned tt,
     mkWorld (store w)
             (mkQueue (if accepting q then jobs q ++ [j] else jobs q)
                      (requested q ++ [j])
                      (accepting q))).

End TaskQueue.

(** ** The service *)

Module TasksService.

(** [if (v) x = f(v, x)] for an optional string [v]. *)
Definition when_truthy {A} (v : option string) (f : string -> A -> A) (x : A) : A :=
  match v with
  | Some s => if truthy v then f s x else x
  | None => x
  end.

(** [v ? Number(v) : d]. *)
Definition or_default (v : option number) (d : number) : number :=
  match v with
  | Some n => if truthy_number v then Number n else d
  | None => d
  end.

(** [create]: [newId] and [defaultStatus] are what the store fills in on
    insertion (the generated key and the status column's default). *)
Definition create (newId defaultStatus : string) (createTaskDto : CreateTaskDto.t)
  : M Task.t :=
  let task := Repository.new_entity newId defaultStatus createTaskDto in
  savedTask <- Repository.insert task ;;
  TaskQueue.add "task-status-update" (Task.id savedTask) (Task.status savedTask) ;;;
  ret savedTask.

Definition findAll (status priority : option string) (page limit : option number)
  : M (list Task.t) :=
  let query := Repository.createQueryBuilder in
  let query := when_truthy status (fun s => Repository.andWhere (Repository.StatusEq s)) query in
  let query := when_truthy priority (fun p => Repository.andWhere (Repository.PriorityEq p)) query in
  let pageNumber := or_default page (Num 1) in
  let limitNumber := or_default limit (Num 10) in
  query <- Repository.skip (Some (num_mul (num_sub pageNumber (Num 1)) limitNumber)) query ;;
  (* [take(limit)]: the argument as the caller gave it, not [limitNumber] *)
  query <- Repository.take limit query ;;
  let query := Repository.leftJoinAndSelect_user query in
  Repository.getMany query.

Record Statistics : Type := mkStatistics {
  total : Z;
  completed : Z;
  inProgress : Z;
  pending : Z;
  highPriority : Z
}.

Definition findTasksStatistics : M Statistics :=
  result <- Repository.getRawOne_statistics ;;
  ret (mkStatistics (Number_raw (Repository.raw_total result))
                    (Number_raw (Repository.raw_completed result))
                    (Number_raw (Repository.raw_inProgress result))
                    (Number_raw (Repository.raw_pending result))
                    (Number_raw (Repository.raw_highPriority result))).

(** [findOne]: the repository's answer cast [as Task]; [None] is the
    [null] that the cast lets through. *)
Definition findOne (id : string) : M (option Task.t) :=
  Repository.findOne id.

(** The five guarded assignments of [update], in source order. *)
Definition assign (updateTaskDto : UpdateTaskDto.t) (task : Task.t) : Task.t :=
  let task := when_truthy (UpdateTaskDto.title updateTaskDto) Task.set_title task in
  let task := when_truthy (UpdateTaskDto.description updateTaskDto) Task.set_description task in
  let task := when_truthy (UpdateTaskDto.status updateTaskDto) Task.set_status task in
  let task := when_truthy (UpdateTaskDto.priority updateTaskDto) Task.set_priority task in
  let task := when_truthy (UpdateTaskDto.dueDate updateTaskDto) Task.set_dueDate task in
  task.

Definition update (id : string) (updateTaskDto : UpdateTaskDto.t) : M Task.t :=
  task <- findOne id ;;
  match task with
  | None => throw TypeError (* reading [status] of [null] *)
  | Some task =>
      let originalStatus := Task.status task in
      let task := assign updateTaskDto task in
      updatedTask <- Repository.save task ;;
      (if negb (originalStatus =? Task.status updatedTask)
       then TaskQueue.add "task-status-update" (Task.id updatedTask) (Task.status updatedTask)
       else ret tt) ;;;
      ret updatedTask
  end.

Definition remove (id : string) : M unit :=
  task <- findOne id ;;
  Repository.remove task.

Definition findByStatus (status : string) : M (list Task.t) :=
  Repository.query_by_status status.

Definition updateStatus (id : string) (status : string) : M Task.t :=
  task <- findOne id ;;
  match task with
  | None => throw TypeError (* writing [status] of [null] *)
  | Some task => Repository.save (Task.set_status status task)
  end.

End TasksService.

(** ** Requests, for statements about every reachable state *)

Inductive Request : Type :=
| Create (newId defaultStatus : string) (dto : CreateTaskDto.t)
| FindAll (status priority : option string) (page limit : option number)
| FindTasksStatistics
| FindOne (id : string)
| Update (id : string) (dto : UpdateTaskDto.t)
| Remove (id : string)
| FindByStatus (status : string)
| UpdateStatus (id : string) (status : string).

(** The world after a request has been served, whatever it answered. *)
Definition serve (r : Request) (w : World) : World :=
  match r with
  | Create k d dto => snd (TasksService.create k d dto w)
  | FindAll s p pg l => snd (TasksService.findAll s p pg l w)
  | FindTasksStatistics => snd (TasksService.findTasksStatistics w)
  | FindOne k => snd (TasksService.findOne k w)
  | Update k dto => snd (TasksService.update k dto w)
  | Remove k => snd (TasksService.remove k w)
  | FindByStatus s => snd (TasksService.findByStatus s w)
  | UpdateStatus k s => snd (TasksService.updateStatus k s w)
  end.

Definition serve_all (rs : list Request) (w : World) : World :=
  fold_left (fun w r => serve r w) rs w.

(** ** Enumerations *)

Definition is_status (s : string) : bool :=
  (s =? "PENDING") || (s =? "IN_PROGRESS") || (s =? "COMPLETED").

Definition is_priority (p : string) : bool :=
  (p =? "LOW") || (p =? "MEDIUM") || (p =? "HIGH").

Definition enumerated (t : Task.t) : bool :=
  is_status (Task.status t) && is_priority (Task.priority t).

(** Every stored task has an enumerated status and priority. *)
Definition store_enumerated (w : World) : bool :=
  forallb enumerated (tasks (store w)).

(** ** Sample data *)

Definition alice : User.t := User.mk "u1" "alice".

Definition sample_task (k st pr : string) : Task.t :=
  Task.mk k ("task " ++ k) "to do" st pr None "u1" None.

Definition idle_queue : Queue := mkQueue [] [] true.
Definition down_queue : Queue := mkQueue [] [] false.

(** A store that returns a page in ascending key order and reads a limit
    of 0 as no limit. *)
Definition sample_driver : Driver := mkDriver (fun _ => 0%nat) true.

Definition empty_world : World := mkWorld (mkStore [] [alice] sample_driver) idle_queue.

Definition one_task_world : World :=
  mkWorld (mkStore [sample_task "t1" "PENDING" "LOW"] [alice] sample_driver) idle_queue.

(** Tasks named A, B, C, ... in store order. *)
Definition numbered_task (i : nat) : Task.t :=
  sample_task (String (ascii_of_nat (64 + i)) "") "PENDING" "LOW".

Definition numbered_world (n : nat) : World :=
  mkWorld (mkStore (map numbered_task (seq 1 n)) [alice] sample_driver) idle_queue.

(** The same tasks stored last key first. *)
Definition descending_world (n : nat) : World :=
  mkWorld (mkStore (rev (map numbered_task (seq 1 n))) [alice] sample_driver) idle_queue.

(** Three COMPLETED, two IN_PROGRESS, one PENDING; two of HIGH priority. *)
Definition six_task_world : World :=
  mkWorld
    (mkStore
       [sample_task "a" "COMPLETED" "HIGH";
        sample_task "b" "COMPLETED" "LOW";
        sample_task "c" "COMPLETED" "MEDIUM";
        sample_task "d" "IN_PROGRESS" "HIGH";
        sample_task "e" "IN_PROGRESS" "LOW";
        sample_task "f" "PENDING" "MEDIUM"]
       [alice]
       sample_driver)
    idle_queue.

(** ** Vocabulary of the statements *)

(** How many rows satisfy [p]. *)
Definition count_where (p : Task.t -> bool) (rows : list Task.t) : Z :=
  Z.of_nat (length (filter p rows)).

(** An optional field of a patch is acceptable to [ok] when it is skipped
    by [update] (absent or empty) or satisfies [ok]. *)
Definition field_ok (ok : string -> bool) (v : option string) : bool :=
  match v with
  | Some s => (s =? "") || ok s
  | None => true
  end.

(** The status and priority values a request carries are enumerated. *)
Definition request_enumerated (r : Request) : bool :=
  match r with
  | Create _ defaultStatus dto =>
      is_status defaultStatus && is_priority (CreateTaskDto.priority dto)
  | Update _ dto =>
      field_ok is_status (UpdateTaskDto.status dto)
      && field_ok is_priority (UpdateTaskDto.priority dto)
  | UpdateStatus _ status => is_status status
  | _ => true
  end.

(** The partial update as the specification words it: a field of the patch
    that is present and not empty replaces the old value, any other leaves
    it. *)
Definition patched (v : option string) (old : string) : string :=
  match v with
  | Some s => if s =? "" then old else s
  | None => old
  end.

(** The same for the optional [dueDate]. *)
Definition patched_opt (v : option string) (old : option string) : option string :=
  match v with
  | Some s => if s =? "" then old else Some s
  | None => old
  end.

(** The queue after one more job was passed to [add]. *)
Definition queue_after_add (j : Job.t) (q : Queue) : Queue :=
  mkQueue (if accepting q then jobs q ++ [j] else jobs q) (requested q ++ [j]) (accepting q).

(** [m] changes nothing. *)
Definition read_only {A} (m : M A) : Prop := forall w, snd (m w) = w.

(** [m] passes no job to the queue and changes nothing else about it. *)
Definition keeps_queue {A} (m : M A) : Prop := forall w, queue (snd (m w)) = queue w.

(** An optional filter of [findAll] lets a value through when the filter
    is not applied (absent or empty) or the value equals it. *)
Definition filter_ok (v : option string) (x : string) : bool :=
  match v with
  | Some s => (s =? "") || (x =? s)
  | None => true
  end.

(** The rows [findAll] selects for the given status and priority filters. *)
Definition selected (status priority : option string) (r : Task.t) : bool :=
  filter_ok status (Task.status r) && filter_ok priority (Task.priority r).

(** The page number and page size [findAll] computes with: the argument
    when it is a number other than 0, the default otherwise. *)
Definition effective (v : option number) (default : Z) : Z :=
  match v with
  | Some (Num z) => if (z =? 0)%Z then default else z
  | _ => default
  end.

(** The offset [findAll] passes to [skip]. *)
Definition offset_of (page limit : option number) : Z :=
  ((effective page 1 - 1) * effective limit 10)%Z.

(** The keys of the task table, in store order. *)
Definition keys (w : World) : list string := map Task.id (tasks (store w)).

(** The key a [Create] request brings is not in the table yet (the store
    generates a new one); no condition on the other requests. *)
Definition brings_new_key (r : Request) (w : World) : bool :=
  match r with
  | Create newId _ _ =>
      match Repository.row_of newId (store w) with
      | None => true
      | Some _ => false
      end
  | _ => true
  end.

(** What [getMany] answers for the query [findAll] builds, given the rows
    that pass the filters, the offset and the limit as set. *)
Definition paged_answer (st : Store) (rows : list Task.t) (off : Z) (lim : option Z)
  : Outcome (list Task.t) :=
  let paged := negb (off =? 0)%Z || Repository.set_nonzero lim in
  match Repository.apply_skip (Some off)
          (if paged then Repository.by_key rows else rows) with
  | None => Thrown QueryFailedError
  | Some rest =>
      match Repository.apply_take (driver st) lim rest with
      | None => Thrown QueryFailedError
      | Some page =>
          Returned (map (Repository.with_user st)
                      (if paged then Repository.as_returned st page else page))
      end
  end.

(** * Properties *)

Local Open Scope list_scope.

(** ** Repository lemmas *)

Lemma row_of_key (k : string) (st : Store) (row : Task.t) :
  Repository.row_of k st = Some row -> Task.id row = k.
Proof.
  unfold Repository.row_of. intros H.
  apply find_some in H. destruct H as [_ H].
  now apply String.eqb_eq.
Qed.

Lemma row_of_In (k : string) (st : Store) (row : Task.t) :
  Repository.row_of k st = Some row -> In row (tasks st).
Proof.
  unfold Repository.row_of. intros H. now apply find_some in H.
Qed.

Lemma find_app_first {A} (f : A -> bool) (l1 l2 : list A) :
  find f (l1 ++ l2) = match find f l1 with Some x => Some x | None => find f l2 end.
Proof.
  induction l1 as [|a l1 IH]; simpl; [reflexivity|].
  destruct (f a); [reflexivity | exact IH].
Qed.

Lemma find_key_after_delete (k id : string) (rows : list Task.t) :
  k <> id ->
  find (fun r => Task.id r =? k) (filter (fun r => negb (Task.id r =? id)) rows)
  = find (fun r => Task.id r =? k) rows.
Proof.
  intros Hk. induction rows as [|r rows IH]; simpl; [reflexivity|].
  destruct (Task.id r =? id) eqn:E; simpl.
  - apply String.eqb_eq in E.
    assert (Hr : (Task.id r =? k) = false) by (apply String.eqb_neq; congruence).
    now rewrite Hr.
  - destruct (Task.id r =? k); [reflexivity | exact IH].
Qed.

Lemma find_in_rejected {A} (f : A -> bool) (l : list A) :
  find f (filter (fun a => negb (f a)) l) = None.
Proof.
  induction l as [|a l IH]; simpl; [reflexivity|].
  destruct (f a) eqn:E; simpl; [exact IH|]. now rewrite E.
Qed.

Lemma find_key_in_copies (k : string) (e : Task.t) (l : list Task.t) :
  k <> Task.id e ->
  find (fun r => Task.id r =? k) (map (fun _ => Task.set_user None e) l) = None.
Proof.
  intros Hk. induction l as [|a l IH]; simpl; [reflexivity|].
  assert (E : (Task.id e =? k) = false) by (apply String.eqb_neq; congruence).
  now rewrite E.
Qed.

(** After [e] is written over its row, looking up [e]'s key gives [e]. *)
Lemma find_written_same (e : Task.t) (rows : list Task.t) (row : Task.t) :
  find (fun r => Task.id r =? Task.id e) rows = Some row ->
  find (fun r => Task.id r =? Task.id e) (Repository.written e rows)
  = Some (Task.set_user None e).
Proof.
  intros H. apply find_some in H. destruct H as [Hin Hhit].
  unfold Repository.written. rewrite find_app_first.
  change (fun r => negb (Repository.hits e r))
    with (fun r => negb ((fun r => Task.id r =? Task.id e) r)).
  rewrite find_in_rejected.
  assert (Hf : In row (filter (Repository.hits e) rows)) by (apply filter_In; auto).
  destruct (filter (Repository.hits e) rows) as [|r rs]; [contradiction|].
  simpl. now rewrite String.eqb_refl.
Qed.

(** Rows under another key are looked up as before the write. *)
Lemma find_written_other (e : Task.t) (k : string) (rows : list Task.t) :
  k <> Task.id e ->
  find (fun r => Task.id r =? k) (Repository.written e rows)
  = find (fun r => Task.id r =? k) rows.
Proof.
  intros Hk. unfold Repository.written. rewrite find_app_first.
  unfold Repository.hits.
  rewrite (find_key_after_delete k (Task.id e) rows Hk).
  rewrite (find_key_in_copies k e _ Hk).
  now destruct (find (fun r => Task.id r =? k) rows).
Qed.

Lemma findOne_run (k : string) (w : World) :
  TasksService.findOne k w
  = (Returned (option_map (Repository.with_user (store w)) (Repository.row_of k (store w))), w).
Proof. reflexivity. Qed.

Lemma save_existing (e row : Task.t) (w : World) :
  Repository.row_of (Task.id e) (store w) = Some row ->
  Repository.save e w
  = (Returned e,
     mkWorld (mkStore (Repository.written e (tasks (store w))) (users (store w)) (driver (store w)))
             (queue w)).
Proof. intros H. unfold Repository.save. now rewrite H. Qed.

Lemma save_queue (e : Task.t) (w : World) :
  queue (snd (Repository.save e w)) = queue w.
Proof.
  unfold Repository.save, Repository.insert.
  destruct (Repository.row_of (Task.id e) (store w)); reflexivity.
Qed.

(** ** C1: create *)

(** C1. [create] inserts the new task at the end of the table and returns
    that very task whether or not the queue accepts the job; the job
    carrying the saved task's id and status is requested once, and when the
    queue accepts it is the one job that joins the queue. *)
Theorem create_returns_persisted_task :
  forall (newId defaultStatus : string) (dto : CreateTaskDto.t) (w : World),
    exists w' : World,
      TasksService.create newId defaultStatus dto w
      = (Returned (Repository.new_entity newId defaultStatus dto), w')
      /\ tasks (store w')
         = tasks (store w) ++ [Repository.new_entity newId defaultStatus dto]
      /\ users (store w') = users (store w)
      /\ requested (queue w')
         = requested (queue w) ++ [Job.mk "task-status-update" newId defaultStatus]
      /\ jobs (queue w')
         = (if accepting (queue w)
            then jobs (queue w) ++ [Job.mk "task-status-update" newId defaultStatus]
            else jobs (queue w))
      /\ accepting (queue w') = accepting (queue w).
Proof.
  intros newId defaultStatus dto w.
  eexists. split; [reflexivity|].
  simpl. repeat split; reflexivity.
Qed.

(** The two cases of C1 on sample data: the same task comes back from a
    queue that accepts and from one that does not. *)
Example create_with_queue_down :
  fst (TasksService.create "t9" "PENDING" (CreateTaskDto.mk "write" "docs" "HIGH" None "u1")
         (mkWorld (store empty_world) down_queue))
  = fst (TasksService.create "t9" "PENDING" (CreateTaskDto.mk "write" "docs" "HIGH" None "u1")
         empty_world).
Proof. reflexivity. Qed.

(** ** update *)

Ltac crush_assign :=
  unfold TasksService.assign, TasksService.when_truthy, truthy, patched, patched_opt;
  simpl;
  repeat match goal with
         | |- context [?s =? ""] => destruct (s =? ""); simpl
         end;
  reflexivity.

Lemma assign_fields (dto : UpdateTaskDto.t) (t : Task.t) :
  TasksService.assign dto t
  = Task.mk (Task.id t)
            (patched (UpdateTaskDto.title dto) (Task.title t))
            (patched (UpdateTaskDto.description dto) (Task.description t))
            (patched (UpdateTaskDto.status dto) (Task.status t))
            (patched (UpdateTaskDto.priority dto) (Task.priority t))
            (patched_opt (UpdateTaskDto.dueDate dto) (Task.dueDate t))
            (Task.userId t)
            (Task.user t).
Proof.
  destruct dto as [[a|] [b|] [c|] [d|] [e|]], t as [i ti de st pr du ui us];
    crush_assign.
Qed.

(** One run of [update] on a stored task, step by step as the source does it. *)
Lemma update_run (id : string) (dto : UpdateTaskDto.t) (w : World) (row : Task.t) :
  Repository.row_of id (store w) = Some row ->
  TasksService.update id dto w
  = (Returned (TasksService.assign dto (Repository.with_user (store w) row)),
     mkWorld
       (mkStore
          (Repository.written
                  (TasksService.assign dto (Repository.with_user (store w) row))
               (tasks (store w)))
          (users (store w)) (driver (store w)))
       (if Task.status row
           =? Task.status (TasksService.assign dto (Repository.with_user (store w) row))
        then queue w
        else queue_after_add
               (Job.mk "task-status-update" id
                  (Task.status (TasksService.assign dto (Repository.with_user (store w) row))))
               (queue w))).
Proof.
  intros Hrow.
  assert (Hid : Task.id row = id) by exact (row_of_key _ _ _ Hrow).
  unfold TasksService.update, bind.
  rewrite findOne_run, Hrow. cbn [option_map]. cbv beta.
  set (u := TasksService.assign dto (Repository.with_user (store w) row)).
  assert (Hu : Task.id u = id).
  { unfold u. rewrite assign_fields. simpl. exact Hid. }
  rewrite (save_existing u row) by (rewrite Hu; exact Hrow).
  change (Task.status (Repository.with_user (store w) row)) with (Task.status row).
  destruct (Task.status row =? Task.status u) eqn:E; simpl.
  - destruct w as [st q]; reflexivity.
  - unfold TaskQueue.add, queue_after_add. simpl. now rewrite Hu.
Qed.

Lemma not_self_snoc {A} (l : list A) (x : A) : l <> l ++ [x].
Proof.
  intros H. apply (f_equal (@length A)) in H.
  rewrite length_app in H. simpl in H. lia.
Qed.

(** ** C2: update and the queue *)

(** C2. For an [update] of a stored task: the job naming the task and its
    new status is passed to the queue exactly when the stored status differs
    from the one before, and then it is the only job passed (and the only
    one to join the queue when the queue accepts); when the status is the
    same as before the queue is left exactly as it was. *)
Theorem update_enqueues_iff_status_changed :
  forall (id : string) (dto : UpdateTaskDto.t) (w : World) (row : Task.t),
    Repository.row_of id (store w) = Some row ->
    exists (updated : Task.t) (w' : World),
      TasksService.update id dto w = (Returned updated, w')
      /\ Repository.row_of id (store w') = Some (Task.set_user None updated)
      /\ (requested (queue w')
          = requested (queue w) ++ [Job.mk "task-status-update" id (Task.status updated)]
          <-> Task.status updated <> Task.status row)
      /\ (queue w' = queue w <-> Task.status updated = Task.status row)
      /\ (Task.status updated <> Task.status row ->
          jobs (queue w')
          = (if accepting (queue w)
             then jobs (queue w) ++ [Job.mk "task-status-update" id (Task.status updated)]
             else jobs (queue w))).
Proof.
  intros id dto w row Hrow.
  pose proof (row_of_key _ _ _ Hrow) as Hid.
  pose proof (update_run id dto w row Hrow) as Hrun.
  remember (TasksService.assign dto (Repository.with_user (store w) row)) as u eqn:Hdef.
  assert (Hu : Task.id u = id).
  { rewrite Hdef, assign_fields. simpl. exact Hid. }
  do 2 eexists. split; [exact Hrun|].
  split.
  { unfold Repository.row_of; simpl. rewrite <- Hu.
    apply (find_written_same u (tasks (store w)) row).
    rewrite Hu. exact Hrow. }
  cbn [queue].
  destruct (Task.status row =? Task.status u) eqn:E.
  - apply String.eqb_eq in E.
    split; [split|split; [split|]].
    + intros H. exfalso. exact (not_self_snoc _ _ H).
    + intros H. congruence.
    + intros _. congruence.
    + intros _. reflexivity.
    + intros H. congruence.
  - apply String.eqb_neq in E.
    split; [split|split; [split|]].
    + intros _. congruence.
    + intros _. reflexivity.
    + intros H. exfalso.
      apply (f_equal requested) in H. simpl in H.
      symmetry in H. exact (not_self_snoc _ _ H).
    + intros H. congruence.
    + intros _. reflexivity.
Qed.

Lemma update_enqueues_iff_status_changed_witness :
  exists (updated : Task.t) (w' : World),
    TasksService.update "t1" (UpdateTaskDto.mk None None (Some "COMPLETED") None None)
      one_task_world
    = (Returned updated, w')
    /\ Repository.row_of "t1" (store w') = Some (Task.set_user None updated)
    /\ (requested (queue w')
        = requested (queue one_task_world)
          ++ [Job.mk "task-status-update" "t1" (Task.status updated)]
        <-> Task.status updated <> "PENDING")
    /\ (queue w' = queue one_task_world <-> Task.status updated = "PENDING")
    /\ (Task.status updated <> "PENDING" ->
        jobs (queue w')
        = (if accepting (queue one_task_world)
           then jobs (queue one_task_world)
                ++ [Job.mk "task-status-update" "t1" (Task.status updated)]
           else jobs (queue one_task_world))).
Proof.
  apply (update_enqueues_iff_status_changed "t1"
           (UpdateTaskDto.mk None None (Some "COMPLETED") None None)
           one_task_world (sample_task "t1" "PENDING" "LOW")).
  reflexivity.
Defined.

(** A status change requests one job; the same patch again requests none. *)
Example update_twice_enqueues_once :
  requested (queue (serve_all
    [Update "t1" (UpdateTaskDto.mk None None (Some "COMPLETED") None None);
     Update "t1" (UpdateTaskDto.mk (Some "renamed") None (Some "COMPLETED") None None)]
    one_task_world))
  = [Job.mk "task-status-update" "t1" "COMPLETED"].
Proof. reflexivity. Qed.

(** ** C3: update as a partial update *)

(** C3. For an [update] of a stored task: the key and the owner are kept,
    every field of the patch that is present and not empty replaces the
    task's field, every other field keeps its value; the result is what the
    store holds under the key afterwards, and no other row changes. *)
Theorem update_applies_only_truthy_fields :
  forall (id : string) (dto : UpdateTaskDto.t) (w : World) (row : Task.t),
    Repository.row_of id (store w) = Some row ->
    exists (updated : Task.t) (w' : World),
      TasksService.update id dto w = (Returned updated, w')
      /\ Repository.row_of id (store w') = Some (Task.set_user None updated)
      /\ Task.id updated = Task.id row
      /\ Task.title updated = patched (UpdateTaskDto.title dto) (Task.title row)
      /\ Task.description updated
         = patched (UpdateTaskDto.description dto) (Task.description row)
      /\ Task.status updated = patched (UpdateTaskDto.status dto) (Task.status row)
      /\ Task.priority updated = patched (UpdateTaskDto.priority dto) (Task.priority row)
      /\ Task.dueDate updated = patched_opt (UpdateTaskDto.dueDate dto) (Task.dueDate row)
      /\ Task.userId updated = Task.userId row
      /\ (forall k : string,
             k <> id -> Repository.row_of k (store w') = Repository.row_of k (store w)).
Proof.
  intros id dto w row Hrow.
  pose proof (row_of_key _ _ _ Hrow) as Hid.
  pose proof (update_run id dto w row Hrow) as Hrun.
  remember (TasksService.assign dto (Repository.with_user (store w) row)) as u eqn:Hdef.
  assert (Hu : Task.id u = id).
  { rewrite Hdef, assign_fields. simpl. exact Hid. }
  do 2 eexists. split; [exact Hrun|].
  split.
  { unfold Repository.row_of; simpl. rewrite <- Hu.
    apply (find_written_same u (tasks (store w)) row).
    rewrite Hu. exact Hrow. }
  split; [congruence|].
  assert (Hlast : forall k : string,
             k <> id ->
             find (fun r => Task.id r =? k) (Repository.written u (tasks (store w)))
             = find (fun r => Task.id r =? k) (tasks (store w))).
  { intros k Hk. apply find_written_other. rewrite Hu. exact Hk. }
  rewrite Hdef, assign_fields. simpl.
  repeat (split; [reflexivity|]).
  intros k Hk. unfold Repository.row_of; simpl.
  rewrite <- (Hlast k Hk). rewrite Hdef, assign_fields. reflexivity.
Qed.

Lemma patched_absent (old : string) : patched None old = old.
Proof. reflexivity. Qed.

Lemma patched_empty (old : string) : patched (Some "") old = old.
Proof. reflexivity. Qed.

Lemma patched_value (s old : string) : s <> "" -> patched (Some s) old = s.
Proof.
  intros H. unfold patched. apply String.eqb_neq in H. now rewrite H.
Qed.

Lemma update_applies_only_truthy_fields_witness :
  exists (updated : Task.t) (w' : World),
    TasksService.update "t1" (UpdateTaskDto.mk (Some "") None (Some "COMPLETED") None None)
      one_task_world
    = (Returned updated, w')
    /\ Repository.row_of "t1" (store w') = Some (Task.set_user None updated)
    /\ Task.id updated = "t1"
    /\ Task.title updated = "task t1"
    /\ Task.description updated = "to do"
    /\ Task.status updated = "COMPLETED"
    /\ Task.priority updated = "LOW"
    /\ Task.dueDate updated = None
    /\ Task.userId updated = "u1"
    /\ (forall k : string,
           k <> "t1" ->
           Repository.row_of k (store w') = Repository.row_of k (store one_task_world)).
Proof.
  apply (update_applies_only_truthy_fields "t1"
           (UpdateTaskDto.mk (Some "") None (Some "COMPLETED") None None)
           one_task_world (sample_task "t1" "PENDING" "LOW")).
  reflexivity.
Defined.

(** ** Computations that leave the world, or the queue, alone *)

Section Frames.
Context {A B : Type}.

Lemma read_only_keeps_queue (m : M A) : read_only m -> keeps_queue m.
Proof. intros H w. now rewrite H. Qed.

Lemma read_only_ret (a : A) : read_only (ret a).
Proof. intros w. reflexivity. Qed.

Lemma read_only_throw (e : Exception) : read_only (@throw A e).
Proof. intros w. reflexivity. Qed.

Lemma read_only_bind (m : M A) (k : A -> M B) :
  read_only m -> (forall a, forall w, snd (k a w) = w) -> forall w, snd (bind m k w) = w.
Proof.
  intros Hm Hk w. unfold bind.
  specialize (Hm w). destruct (m w) as [[a|e] w1]; simpl in Hm; subst w1.
  - apply Hk.
  - reflexivity.
Qed.

Lemma keeps_queue_bind (m : M A) (k : A -> M B) :
  keeps_queue m ->
  (forall a, forall w, queue (snd (k a w)) = queue w) ->
  forall w, queue (snd (bind m k w)) = queue w.
Proof.
  intros Hm Hk w. unfold bind.
  specialize (Hm w). destruct (m w) as [[a|e] w1]; simpl in Hm.
  - now rewrite Hk.
  - exact Hm.
Qed.
End Frames.

Lemma skip_read_only (n : option number) (q : Repository.QueryBuilder) :
  read_only (Repository.skip n q).
Proof. intros w. destruct n as [[|z]|]; reflexivity. Qed.

Lemma take_read_only (n : option number) (q : Repository.QueryBuilder) :
  read_only (Repository.take n q).
Proof. intros w. destruct n as [[|z]|]; reflexivity. Qed.

Lemma getMany_read_only (q : Repository.QueryBuilder) :
  read_only (Repository.getMany q).
Proof.
  intros w. unfold Repository.getMany.
  destruct (Repository.apply_skip _ _); [|reflexivity].
  destruct (Repository.apply_take _ _); reflexivity.
Qed.

Lemma findAll_read_only (status priority : option string) (page limit : option number) :
  read_only (TasksService.findAll status priority page limit).
Proof.
  intros w. unfold TasksService.findAll.
  apply read_only_bind; [apply skip_read_only|].
  intros q1 w1. apply read_only_bind; [apply take_read_only|].
  intros q2 w2. apply getMany_read_only.
Qed.

Lemma findTasksStatistics_read_only : read_only TasksService.findTasksStatistics.
Proof. intros w. reflexivity. Qed.

Lemma findOne_read_only (id : string) : read_only (TasksService.findOne id).
Proof. intros w. reflexivity. Qed.

Lemma findByStatus_read_only (status : string) : read_only (TasksService.findByStatus status).
Proof. intros w. reflexivity. Qed.

Lemma repository_remove_keeps_queue (e : option Task.t) : keeps_queue (Repository.remove e).
Proof. intros w. destruct e; reflexivity. Qed.

Lemma remove_keeps_queue (id : string) : keeps_queue (TasksService.remove id).
Proof.
  intros w. unfold TasksService.remove.
  apply keeps_queue_bind.
  - apply read_only_keeps_queue, findOne_read_only.
  - intros e w1. apply repository_remove_keeps_queue.
Qed.

Lemma updateStatus_keeps_queue (id status : string) :
  keeps_queue (TasksService.updateStatus id status).
Proof.
  intros w. unfold TasksService.updateStatus.
  apply keeps_queue_bind.
  - apply read_only_keeps_queue, findOne_read_only.
  - intros [t|] w1; [apply save_queue | reflexivity].
Qed.

(** ** C4: findOne *)

(** For a stored key [findOne] returns the row with its owner attached. *)
Lemma findOne_present (id : string) (w : World) (row : Task.t) :
  Repository.row_of id (store w) = Some row ->
  TasksService.findOne id w
  = (Returned (Some (Task.set_user (Repository.find_user (Task.userId row) (store w)) row)), w).
Proof. intros H. rewrite findOne_run, H. reflexivity. Qed.

(** For a key that is not stored [findOne] returns [null]. *)
Lemma findOne_absent (id : string) (w : World) :
  Repository.row_of id (store w) = None ->
  TasksService.findOne id w = (Returned None, w).
Proof. intros H. rewrite findOne_run, H. reflexivity. Qed.

(** C4. What [findOne] does: it always returns, with the repository's
    answer ([null] when no row has the key), and so never signals Not-Found;
    on the sample store, asked for a key that is not there, it returns
    [null]. *)
Theorem findOne_never_signals_not_found :
  (forall id w,
      TasksService.findOne id w
      = (Returned (option_map (Repository.with_user (store w)) (Repository.row_of id (store w))),
         w))
  /\ (forall id w, is_not_found (fst (TasksService.findOne id w)) = false)
  /\ Repository.row_of "missing" (store one_task_world) = None
  /\ TasksService.findOne "missing" one_task_world = (Returned None, one_task_world).
Proof.
  split; [|split; [|split]]; intros; reflexivity.
Qed.

(** ** C5: remove *)

(** For a stored key [remove] deletes the rows under that key and no other. *)
Lemma remove_present (id : string) (w : World) (row : Task.t) :
  Repository.row_of id (store w) = Some row ->
  TasksService.remove id w
  = (Returned tt,
     mkWorld (mkStore (filter (fun r => negb (Task.id r =? id)) (tasks (store w)))
                      (users (store w)) (driver (store w)))
             (queue w)).
Proof.
  intros H. unfold TasksService.remove, bind.
  rewrite findOne_run, H. simpl.
  now rewrite (row_of_key _ _ _ H).
Qed.

Lemma remove_present_gone (id : string) (w : World) (row : Task.t) :
  Repository.row_of id (store w) = Some row ->
  Repository.row_of id (store (snd (TasksService.remove id w))) = None.
Proof.
  intros H. rewrite (remove_present id w row H). unfold Repository.row_of. simpl.
  induction (tasks (store w)) as [|r rows IH]; simpl; [reflexivity|].
  destruct (Task.id r =? id) eqn:E; simpl; [exact IH|].
  now rewrite E.
Qed.

(** For a key that is not stored [remove] hands [null] to the repository,
    which rejects it; nothing changes. *)
Lemma remove_absent (id : string) (w : World) :
  Repository.row_of id (store w) = None ->
  TasksService.remove id w = (Thrown MustBeEntityError, w).
Proof.
  intros H. unfold TasksService.remove, bind.
  rewrite findOne_run, H. reflexivity.
Qed.

(** C5. What [remove] does: it never signals Not-Found; on the sample
    store, asked for a key that is not there, it fails with the
    repository's own error and leaves the world as it was. *)
Theorem remove_never_signals_not_found :
  (forall id w, is_not_found (fst (TasksService.remove id w)) = false)
  /\ Repository.row_of "missing" (store one_task_world) = None
  /\ TasksService.remove "missing" one_task_world = (Thrown MustBeEntityError, one_task_world).
Proof.
  split; [|split; reflexivity].
  intros id w. unfold TasksService.remove, bind.
  rewrite findOne_run.
  destruct (Repository.row_of id (store w)); reflexivity.
Qed.

(** ** findAll *)

Lemma place_perm {K} (le : K -> K -> bool) (key : Task.t -> K) (x : Task.t) (l : list Task.t) :
  Permutation (Repository.place le key x l) (x :: l).
Proof.
  induction l as [|y l IH]; simpl; [apply Permutation_refl|].
  destruct (le (key x) (key y)); [apply Permutation_refl|].
  eapply perm_trans; [apply perm_skip, IH | apply perm_swap].
Qed.

(** Sorting returns the same rows. *)
Lemma sort_on_perm {K} (le : K -> K -> bool) (key : Task.t -> K) (l : list Task.t) :
  Permutation (Repository.sort_on le key l) l.
Proof.
  induction l as [|x l IH]; simpl; [constructor|].
  eapply perm_trans; [apply place_perm | now apply perm_skip].
Qed.

Lemma by_key_perm (l : list Task.t) : Permutation (Repository.by_key l) l.
Proof. apply sort_on_perm. Qed.

Lemma as_returned_perm (st : Store) (l : list Task.t) :
  Permutation (Repository.as_returned st l) l.
Proof. apply sort_on_perm. Qed.

Lemma In_firstn {A} (n : nat) (l : list A) (x : A) : In x (firstn n l) -> In x l.
Proof.
  intros H. rewrite <- (firstn_skipn n l). apply in_or_app. now left.
Qed.

Lemma In_skipn {A} (n : nat) (l : list A) (x : A) : In x (skipn n l) -> In x l.
Proof.
  intros H. rewrite <- (firstn_skipn n l). apply in_or_app. now right.
Qed.


(** The query [findAll] builds from its two filters selects the rows that
    pass both. *)
Lemma findAll_query_matches (status priority : option string) (r : Task.t) :
  Repository.matches
    (TasksService.when_truthy priority
       (fun p => Repository.andWhere (Repository.PriorityEq p))
       (TasksService.when_truthy status
          (fun s => Repository.andWhere (Repository.StatusEq s))
          Repository.createQueryBuilder))
    r
  = selected status priority r.
Proof.
  unfold selected, filter_ok, TasksService.when_truthy, truthy, Repository.matches.
  destruct status as [s|], priority as [p|]; simpl;
    repeat match goal with
           | |- context [?x =? ""] => destruct (x =? ""); simpl
           end;
    rewrite ?andb_true_r; reflexivity.
Qed.

Lemma or_default_effective (v : option number) (d : Z) :
  TasksService.or_default v (Num d) = Num (effective v d).
Proof.
  unfold TasksService.or_default, effective, truthy_number, Number.
  destruct v as [[|z]|]; try reflexivity.
  destruct (z =? 0)%Z; reflexivity.
Qed.

(** [findAll] in closed form: a limit that is [NaN] is refused by [take];
    otherwise the answer is [getMany]'s for the rows that pass the filters,
    the offset [offset_of page limit] and the limit as given. *)
Lemma findAll_closed_form
  (status priority : option string) (page limit : option number) (w : World) :
  TasksService.findAll status priority page limit w
  = (match limit with
     | Some NaN => Thrown TypeORMError
     | Some (Num l) =>
         paged_answer (store w) (filter (selected status priority) (tasks (store w)))
           (offset_of page limit) (Some l)
     | None =>
         paged_answer (store w) (filter (selected status priority) (tasks (store w)))
           (offset_of page limit) None
     end,
     w).
Proof.
  unfold TasksService.findAll.
  rewrite !or_default_effective.
  change (num_mul (num_sub (Num (effective page 1)) (Num 1)) (Num (effective limit 10)))
    with (Num (offset_of page limit)).
  set (q := TasksService.when_truthy priority _ _).
  assert (Hq : filter (Repository.matches q) (tasks (store w))
               = filter (selected status priority) (tasks (store w))).
  { apply filter_ext. intros r. apply findAll_query_matches. }
  unfold bind, Repository.skip, ret.
  destruct limit as [[|l]|]; unfold Repository.take, throw, ret; [reflexivity| |].
  all: unfold Repository.getMany, Repository.leftJoinAndSelect_user, Repository.paginated,
         paged_answer;
       cbn [Repository.qskip Repository.qtake Repository.joinUser Repository.wheres andb
            Repository.set_nonzero];
       change (filter (Repository.matches _) (tasks (store w)))
         with (filter (Repository.matches q) (tasks (store w)));
       rewrite Hq;
       destruct (Repository.apply_skip _ _); [|reflexivity];
       destruct (Repository.apply_take _ _ _); reflexivity.
Qed.

(** A positive page and a positive limit that the database takes: the keys
    of the page are the [l] that follow the first [(p - 1) * l] in
    ascending key order, and their entities come back in the store's order. *)
Lemma findAll_paged (status priority : option string) (p l : Z) (w : World) :
  (0 < p)%Z -> (0 < l)%Z ->
  (l <= Repository.max_bigint)%Z -> ((p - 1) * l <= Repository.max_bigint)%Z ->
  TasksService.findAll status priority (Some (Num p)) (Some (Num l)) w
  = (Returned
       (map (Repository.with_user (store w))
          (Repository.as_returned (store w)
             (firstn (Z.to_nat l)
                (skipn (Z.to_nat ((p - 1) * l))
                   (Repository.by_key
                      (filter (selected status priority) (tasks (store w)))))))),
     w).
Proof.
  intros Hp Hl Hlmax Homax. rewrite findAll_closed_form.
  assert (Eo : offset_of (Some (Num p)) (Some (Num l)) = ((p - 1) * l)%Z).
  { unfold offset_of, effective.
    assert (Ep : (p =? 0)%Z = false) by (apply Z.eqb_neq; lia).
    assert (El : (l =? 0)%Z = false) by (apply Z.eqb_neq; lia).
    now rewrite Ep, El. }
  rewrite Eo. unfold paged_answer, Repository.apply_skip, Repository.apply_take,
    Repository.in_bigint, Repository.set_nonzero.
  assert (E1 : (0 <=? (p - 1) * l)%Z = true) by (apply Z.leb_le; nia).
  assert (E2 : ((p - 1) * l <=? Repository.max_bigint)%Z = true) by (now apply Z.leb_le).
  assert (E3 : (0 <=? l)%Z = true) by (apply Z.leb_le; lia).
  assert (E4 : (l <=? Repository.max_bigint)%Z = true) by (now apply Z.leb_le).
  assert (E5 : (l =? 0)%Z = false) by (apply Z.eqb_neq; lia).
  rewrite E1, E2, E3, E4, E5. simpl negb. rewrite orb_true_r. reflexivity.
Qed.

(** With every argument omitted [findAll] sets no limit: the whole table
    comes back. *)
Lemma findAll_all_omitted (w : World) :
  TasksService.findAll None None None None w
  = (Returned (map (Repository.with_user (store w)) (tasks (store w))), w).
Proof.
  rewrite findAll_closed_form. unfold paged_answer. simpl.
  now rewrite filter_true.
Qed.

(** ** C6: defaults of findAll *)

(** C6. What [findAll] does when page and limit are omitted: the default
    page size reaches the offset only, no limit is set, and every task comes
    back; on a store of eleven tasks it returns all eleven. *)
Theorem findAll_omitted_limit_is_unbounded :
  (forall w,
      TasksService.findAll None None None None w
      = (Returned (map (Repository.with_user (store w)) (tasks (store w))), w))
  /\ length (tasks (store (numbered_world 11))) = 11%nat
  /\ (exists page,
         fst (TasksService.findAll None None None None (numbered_world 11)) = Returned page
         /\ length page = 11%nat).
Proof.
  split; [exact findAll_all_omitted|].
  split; [reflexivity|].
  eexists. split; reflexivity.
Qed.

(** ** C7: pagination *)

(** C7, as the code has it. On a store of 25 tasks, [findAll] with no
    filter, page 2 and limit 10 returns ten tasks, each with its owner
    attached: those that come 11th to 20th when the tasks are ranked by
    ascending key, not by their place in the store, and in an order the
    store chooses. *)
Theorem findAll_page_two_of_25_by_key :
  forall w : World,
    length (tasks (store w)) = 25%nat ->
    exists page : list Task.t,
      TasksService.findAll None None (Some (Num 2)) (Some (Num 10)) w = (Returned page, w)
      /\ Permutation page
           (map (Repository.with_user (store w))
              (firstn 10 (skipn ((2 - 1) * 10) (Repository.by_key (tasks (store w))))))
      /\ length page = 10%nat.
Proof.
  intros w Hlen.
  eexists. split; [apply findAll_paged; unfold Repository.max_bigint; lia|].
  change (Z.to_nat 10) with 10%nat.
  change (Z.to_nat ((2 - 1) * 10)) with 10%nat.
  assert (Hsel : filter (selected None None) (tasks (store w)) = tasks (store w))
    by apply filter_true.
  rewrite Hsel. split.
  - apply Permutation_map. apply as_returned_perm.
  - rewrite length_map.
    rewrite (Permutation_length (as_returned_perm _ _)).
    rewrite length_firstn, length_skipn.
    rewrite (Permutation_length (by_key_perm _)), Hlen. reflexivity.
Qed.

Lemma findAll_page_two_of_25_by_key_witness :
  exists page : list Task.t,
    TasksService.findAll None None (Some (Num 2)) (Some (Num 10)) (descending_world 25)
    = (Returned page, descending_world 25)
    /\ Permutation page
         (map (Repository.with_user (store (descending_world 25)))
            (firstn 10 (skipn ((2 - 1) * 10)
                          (Repository.by_key (tasks (store (descending_world 25)))))))
    /\ length page = 10%nat.
Proof.
  apply (findAll_page_two_of_25_by_key (descending_world 25)).
  reflexivity.
Defined.

(** C7 as stated fails: on 25 tasks stored last key first, page 2 of size
    10 holds the keys K to T, while the 11th to 20th tasks in store order
    are those of keys O down to F; the task of key T is returned and is not
    among them. *)
Lemma findAll_page_two_is_not_in_store_order :
  length (tasks (store (descending_world 25))) = 25%nat
  /\ match fst (TasksService.findAll None None (Some (Num 2)) (Some (Num 10))
                  (descending_world 25)) with
     | Returned page => map Task.id page
     | Thrown _ => []
     end
     = ["K"; "L"; "M"; "N"; "O"; "P"; "Q"; "R"; "S"; "T"]
  /\ map Task.id (firstn 10 (skipn 10 (tasks (store (descending_world 25)))))
     = ["O"; "N"; "M"; "L"; "K"; "J"; "I"; "H"; "G"; "F"]
  /\ existsb (String.eqb "T")
       (map Task.id (firstn 10 (skipn 10 (tasks (store (descending_world 25))))))
     = false.
Proof. repeat split. Qed.

(** ** C8: statistics *)

Lemma sum_case_when (p : Task.t -> bool) (rows : list Task.t) :
  fold_right (fun r acc => (Repository.case_when (p r) + acc)%Z) 0%Z rows
  = count_where p rows.
Proof.
  unfold count_where.
  induction rows as [|r rows IH]; simpl; [reflexivity|].
  rewrite IH. destruct (p r); simpl Repository.case_when; simpl length; lia.
Qed.

(** [Number(SUM(CASE WHEN p THEN 1 ELSE 0 END))] counts the rows with [p],
    also over the empty table, where the sum is [NULL]. *)
Lemma Number_sql_sum (p : Task.t -> bool) (rows : list Task.t) :
  Number_raw (Repository.sql_sum (fun r => Repository.case_when (p r)) rows)
  = count_where p rows.
Proof.
  destruct rows as [|r rows]; [reflexivity|].
  unfold Repository.sql_sum, Number_raw. apply sum_case_when.
Qed.

(** C8. [findTasksStatistics] changes nothing and returns the counts over
    the table as it is at the call: all rows, the rows of each status, and
    the rows of HIGH priority; on the sample of three COMPLETED, two
    IN_PROGRESS, one PENDING and two HIGH it returns 6, 3, 2, 1, 2. *)
Theorem findTasksStatistics_counts :
  (forall w : World,
      TasksService.findTasksStatistics w
      = (Returned
           (TasksService.mkStatistics
              (Z.of_nat (length (tasks (store w))))
              (count_where (fun t => Task.status t =? "COMPLETED") (tasks (store w)))
              (count_where (fun t => Task.status t =? "IN_PROGRESS") (tasks (store w)))
              (count_where (fun t => Task.status t =? "PENDING") (tasks (store w)))
              (count_where (fun t => Task.priority t =? "HIGH") (tasks (store w)))),
         w))
  /\ TasksService.findTasksStatistics six_task_world
     = (Returned (TasksService.mkStatistics 6 3 2 1 2), six_task_world).
Proof.
  split; [|reflexivity].
  intros w. unfold TasksService.findTasksStatistics, bind, Repository.getRawOne_statistics, ret.
  cbn [Repository.raw_total Repository.raw_completed Repository.raw_inProgress
       Repository.raw_pending Repository.raw_highPriority].
  rewrite !Number_sql_sum. reflexivity.
Qed.

(** Over the empty table every sum is [NULL] and every count is 0. *)
Example findTasksStatistics_empty :
  fst (TasksService.findTasksStatistics empty_world)
  = Returned (TasksService.mkStatistics 0 0 0 0 0).
Proof. reflexivity. Qed.

(** ** C9: enumerated status and priority *)

Lemma patched_ok (ok : string -> bool) (v : option string) (old : string) :
  field_ok ok v = true -> ok old = true -> ok (patched v old) = true.
Proof.
  destruct v as [s|]; simpl; [|auto].
  destruct (s =? ""); simpl; auto.
Qed.

Lemma enumerated_set_user (u : option User.t) (t : Task.t) :
  enumerated (Task.set_user u t) = enumerated t.
Proof. reflexivity. Qed.

Lemma forallb_filter_sub {A} (p q : A -> bool) (l : list A) :
  forallb p l = true -> forallb p (filter q l) = true.
Proof.
  induction l as [|a l IH]; simpl; [reflexivity|].
  intros H. apply andb_true_iff in H. destruct H as [Ha Hl].
  destruct (q a); simpl; [rewrite Ha|]; auto.
Qed.

Lemma forallb_written (e : Task.t) (rows : list Task.t) :
  enumerated e = true ->
  forallb enumerated rows = true ->
  forallb enumerated (Repository.written e rows) = true.
Proof.
  intros He Hrows. unfold Repository.written.
  rewrite forallb_app. apply andb_true_iff. split.
  - now apply forallb_filter_sub.
  - induction (filter (Repository.hits e) rows) as [|r rs IH]; simpl; [reflexivity|].
    now rewrite enumerated_set_user, He.
Qed.

Lemma save_enumerated (e : Task.t) (w : World) :
  enumerated e = true ->
  store_enumerated w = true ->
  store_enumerated (snd (Repository.save e w)) = true.
Proof.
  unfold store_enumerated, Repository.save, Repository.insert. intros He Hw.
  destruct (Repository.row_of (Task.id e) (store w)); simpl.
  - now apply forallb_written.
  - rewrite forallb_app, Hw. simpl. now rewrite enumerated_set_user, He.
Qed.

Lemma row_enumerated (k : string) (w : World) (row : Task.t) :
  store_enumerated w = true ->
  Repository.row_of k (store w) = Some row ->
  enumerated row = true.
Proof.
  unfold store_enumerated. intros Hw Hrow.
  rewrite forallb_forall in Hw. apply Hw. exact (row_of_In _ _ _ Hrow).
Qed.

Lemma assign_enumerated (dto : UpdateTaskDto.t) (t : Task.t) :
  field_ok is_status (UpdateTaskDto.status dto) = true ->
  field_ok is_priority (UpdateTaskDto.priority dto) = true ->
  enumerated t = true ->
  enumerated (TasksService.assign dto t) = true.
Proof.
  intros Hs Hp Ht. rewrite assign_fields. unfold enumerated in *. simpl.
  apply andb_true_iff in Ht. destruct Ht as [Hts Htp].
  apply andb_true_iff. split; now apply patched_ok.
Qed.

(** One request with enumerated arguments keeps the store enumerated. *)
Lemma serve_enumerated (r : Request) (w : World) :
  request_enumerated r = true ->
  store_enumerated w = true ->
  store_enumerated (serve r w) = true.
Proof.
  intros Hr Hw. destruct r as [k d dto|s p pg l| |k|k dto|k|s|k s]; simpl serve.
  - simpl in Hr. unfold store_enumerated in *. simpl.
    rewrite forallb_app, Hw. simpl. unfold enumerated. simpl. now rewrite Hr.
  - now rewrite findAll_read_only.
  - exact Hw.
  - exact Hw.
  - simpl in Hr. apply andb_true_iff in Hr. destruct Hr as [Hs Hp].
    destruct (Repository.row_of k (store w)) as [row|] eqn:Hrow.
    + rewrite (update_run k dto w row Hrow). unfold store_enumerated. simpl.
      apply forallb_written; [|exact Hw].
      apply assign_enumerated; try assumption.
      unfold Repository.with_user. rewrite enumerated_set_user.
      exact (row_enumerated k w row Hw Hrow).
    + unfold TasksService.update, bind. rewrite findOne_run, Hrow. exact Hw.
  - unfold TasksService.remove, bind. rewrite findOne_run.
    destruct (Repository.row_of k (store w)) as [row|]; simpl; [|exact Hw].
    unfold store_enumerated. simpl. now apply forallb_filter_sub.
  - exact Hw.
  - simpl in Hr. unfold TasksService.updateStatus, bind. rewrite findOne_run.
    destruct (Repository.row_of k (store w)) as [row|] eqn:Hrow; simpl; [|exact Hw].
    apply save_enumerated; [|exact Hw].
    pose proof (row_enumerated k w row Hw Hrow) as He.
    unfold enumerated in *. simpl.
    apply andb_true_iff in He. destruct He as [_ He]. now rewrite Hr, He.
Qed.

(** C9, as the code has it. From a store whose tasks have enumerated status
    and priority, any sequence of requests whose own status and priority
    arguments are enumerated leads to such a store again; [updateStatus]
    checks nothing, so for it the condition is on the caller. *)
Theorem enumerated_requests_keep_store_enumerated :
  forall (rs : list Request) (w : World),
    store_enumerated w = true ->
    forallb request_enumerated rs = true ->
    store_enumerated (serve_all rs w) = true.
Proof.
  unfold serve_all. induction rs as [|r rs IH]; intros w Hw Hrs; simpl; [exact Hw|].
  simpl in Hrs. apply andb_true_iff in Hrs. destruct Hrs as [Hr Hrs].
  apply IH; [|exact Hrs]. now apply serve_enumerated.
Qed.

Lemma enumerated_requests_keep_store_enumerated_witness :
  store_enumerated
    (serve_all
       [Create "t1" "PENDING" (CreateTaskDto.mk "write" "docs" "HIGH" None "u1");
        Update "t1" (UpdateTaskDto.mk None (Some "") (Some "IN_PROGRESS") (Some "LOW") None);
        UpdateStatus "t1" "COMPLETED";
        Remove "t0"]
       empty_world)
  = true.
Proof.
  apply (enumerated_requests_keep_store_enumerated
           [Create "t1" "PENDING" (CreateTaskDto.mk "write" "docs" "HIGH" None "u1");
            Update "t1" (UpdateTaskDto.mk None (Some "") (Some "IN_PROGRESS") (Some "LOW") None);
            UpdateStatus "t1" "COMPLETED";
            Remove "t0"]
           empty_world); reflexivity.
Defined.

(** C9 as stated fails: after a [create], [updateStatus] with a string
    outside the enumeration leaves that string in the store. *)
Lemma updateStatus_stores_any_string :
  store_enumerated empty_world = true
  /\ store_enumerated
       (serve_all
          [Create "t1" "PENDING" (CreateTaskDto.mk "write" "docs" "HIGH" None "u1");
           UpdateStatus "t1" "BOGUS"]
          empty_world)
     = false
  /\ map Task.status
       (tasks (store
          (serve_all
             [Create "t1" "PENDING" (CreateTaskDto.mk "write" "docs" "HIGH" None "u1");
              UpdateStatus "t1" "BOGUS"]
             empty_world)))
     = ["BOGUS"].
Proof. repeat split. Qed.

(** ** C10: who talks to the queue *)

(** C10. [findAll], [findTasksStatistics], [findOne], [findByStatus],
    [remove] and [updateStatus] leave the queue exactly as they found it,
    on every input and whatever they answer: no job is requested and none
    joins the queue. *)
Theorem only_create_and_update_enqueue :
  (forall status priority page limit w,
      queue (snd (TasksService.findAll status priority page limit w)) = queue w)
  /\ (forall w, queue (snd (TasksService.findTasksStatistics w)) = queue w)
  /\ (forall id w, queue (snd (TasksService.findOne id w)) = queue w)
  /\ (forall status w, queue (snd (TasksService.findByStatus status w)) = queue w)
  /\ (forall id w, queue (snd (TasksService.remove id w)) = queue w)
  /\ (forall id status w, queue (snd (TasksService.updateStatus id status w)) = queue w).
Proof.
  split; [|split; [|split; [|split; [|split]]]]; intros.
  - apply read_only_keeps_queue, findAll_read_only.
  - reflexivity.
  - reflexivity.
  - reflexivity.
  - apply remove_keeps_queue.
  - apply updateStatus_keeps_queue.
Qed.

(** The consumer's [updateStatus] on a stored task requests nothing, where
    the same change through [update] requests one job. *)
Example updateStatus_does_not_enqueue :
  requested (queue (serve (UpdateStatus "t1" "COMPLETED") one_task_world)) = []
  /\ requested (queue (serve (Update "t1" (UpdateTaskDto.mk None None (Some "COMPLETED") None None))
                         one_task_world))
     = [Job.mk "task-status-update" "t1" "COMPLETED"].
Proof. split; reflexivity. Qed.

(** * Further properties of the service *)

(** ** Lookups after the table changed *)

Lemma find_key_snoc_fresh (k : string) (rows : list Task.t) (e : Task.t) :
  find (fun r => Task.id r =? k) rows = None ->
  Task.id e = k ->
  find (fun r => Task.id r =? k) (rows ++ [e]) = Some e.
Proof.
  intros Hnone He. induction rows as [|r rows IH]; simpl in *.
  - rewrite He, String.eqb_refl. reflexivity.
  - destruct (Task.id r =? k); [discriminate | now apply IH].
Qed.

Lemma find_key_snoc_kept (k : string) (rows : list Task.t) (e row : Task.t) :
  find (fun r => Task.id r =? k) rows = Some row ->
  find (fun r => Task.id r =? k) (rows ++ [e]) = Some row.
Proof.
  induction rows as [|r rows IH]; simpl; [discriminate|].
  destruct (Task.id r =? k); [auto | exact IH].
Qed.

(** One run of [updateStatus] on a stored task. *)
Lemma updateStatus_run (id status : string) (w : World) (row : Task.t) :
  Repository.row_of id (store w) = Some row ->
  TasksService.updateStatus id status w
  = (Returned (Task.set_status status (Repository.with_user (store w) row)),
     mkWorld
       (mkStore
          (Repository.written
                  (Task.set_status status (Repository.with_user (store w) row))
               (tasks (store w)))
          (users (store w)) (driver (store w)))
       (queue w)).
Proof.
  intros Hrow.
  unfold TasksService.updateStatus, bind.
  rewrite findOne_run, Hrow. cbn [option_map]. cbv beta.
  apply (save_existing _ row). simpl.
  now rewrite (row_of_key _ _ _ Hrow).
Qed.

(** ** X1: update and updateStatus on a missing key *)

(** X1. When no row has the key, [update] and [updateStatus] fail with a
    TypeError (they read, respectively write, [status] on the [null] that
    [findOne] returned), whatever the patch or the status; nothing is
    stored and nothing reaches the queue. *)
Theorem update_and_updateStatus_on_missing_key :
  forall (id : string) (w : World),
    Repository.row_of id (store w) = None ->
    (forall dto, TasksService.update id dto w = (Thrown TypeError, w))
    /\ (forall status, TasksService.updateStatus id status w = (Thrown TypeError, w)).
Proof.
  intros id w Hnone. split; intros x.
  - unfold TasksService.update, bind. now rewrite findOne_run, Hnone.
  - unfold TasksService.updateStatus, bind. now rewrite findOne_run, Hnone.
Qed.

Lemma update_and_updateStatus_on_missing_key_witness :
  (forall dto, TasksService.update "missing" dto one_task_world
               = (Thrown TypeError, one_task_world))
  /\ (forall status, TasksService.updateStatus "missing" status one_task_world
                     = (Thrown TypeError, one_task_world)).
Proof.
  apply (update_and_updateStatus_on_missing_key "missing" one_task_world).
  reflexivity.
Defined.

(** ** X2: updateStatus on a stored task *)

(** X2. On a stored task [updateStatus] returns the task, owner attached,
    with the given status and every other field as stored; the store then
    holds the task with that status under the key, every other key is as
    before, and so are the users and the queue. *)
Theorem updateStatus_overwrites_status_only :
  forall (id status : string) (w : World) (row : Task.t),
    Repository.row_of id (store w) = Some row ->
    exists w' : World,
      TasksService.updateStatus id status w
      = (Returned (Task.set_status status (Repository.with_user (store w) row)), w')
      /\ Repository.row_of id (store w')
         = Some (Task.set_status status (Task.set_user None row))
      /\ (forall k : string,
             k <> id -> Repository.row_of k (store w') = Repository.row_of k (store w))
      /\ users (store w') = users (store w)
      /\ queue w' = queue w.
Proof.
  intros id status w row Hrow.
  pose proof (row_of_key _ _ _ Hrow) as Hid.
  eexists. split; [exact (updateStatus_run id status w row Hrow)|].
  remember (Task.set_status status (Repository.with_user (store w) row)) as u eqn:Hdef.
  assert (Hu : Task.id u = id) by (rewrite Hdef; exact Hid).
  split; [|split; [|split; reflexivity]].
  - unfold Repository.row_of; simpl.
    replace (Task.set_status status (Task.set_user None row)) with (Task.set_user None u)
      by (rewrite Hdef; reflexivity).
    rewrite <- Hu. apply (find_written_same u (tasks (store w)) row).
    rewrite Hu. exact Hrow.
  - intros k Hk. unfold Repository.row_of; simpl.
    apply find_written_other. rewrite Hu. exact Hk.
Qed.

Lemma updateStatus_overwrites_status_only_witness :
  exists w' : World,
    TasksService.updateStatus "t1" "COMPLETED" one_task_world
    = (Returned (Task.set_status "COMPLETED"
                   (Repository.with_user (store one_task_world)
                      (sample_task "t1" "PENDING" "LOW"))), w')
    /\ Repository.row_of "t1" (store w')
       = Some (Task.set_status "COMPLETED"
                 (Task.set_user None (sample_task "t1" "PENDING" "LOW")))
    /\ (forall k : string,
           k <> "t1" ->
           Repository.row_of k (store w') = Repository.row_of k (store one_task_world))
    /\ users (store w') = users (store one_task_world)
    /\ queue w' = queue one_task_world.
Proof.
  apply (updateStatus_overwrites_status_only "t1" "COMPLETED" one_task_world
           (sample_task "t1" "PENDING" "LOW")).
  reflexivity.
Defined.

(** ** X3: remove on a stored task *)

(** X3. On a stored key [remove] returns normally; afterwards no row has
    the key, every other key is looked up as before, and the users and the
    queue are untouched. *)
Theorem remove_deletes_only_that_key :
  forall (id : string) (w : World) (row : Task.t),
    Repository.row_of id (store w) = Some row ->
    exists w' : World,
      TasksService.remove id w = (Returned tt, w')
      /\ Repository.row_of id (store w') = None
      /\ (forall k : string,
             k <> id -> Repository.row_of k (store w') = Repository.row_of k (store w))
      /\ users (store w') = users (store w)
      /\ queue w' = queue w.
Proof.
  intros id w row Hrow.
  eexists. split; [exact (remove_present id w row Hrow)|].
  split; [|split; [|split; reflexivity]].
  - pose proof (remove_present_gone id w row Hrow) as H.
    rewrite (remove_present id w row Hrow) in H. exact H.
  - intros k Hk. unfold Repository.row_of; simpl.
    now apply find_key_after_delete.
Qed.

Lemma remove_deletes_only_that_key_witness :
  exists w' : World,
    TasksService.remove "t1" one_task_world = (Returned tt, w')
    /\ Repository.row_of "t1" (store w') = None
    /\ (forall k : string,
           k <> "t1" ->
           Repository.row_of k (store w') = Repository.row_of k (store one_task_world))
    /\ users (store w') = users (store one_task_world)
    /\ queue w' = queue one_task_world.
Proof.
  apply (remove_deletes_only_that_key "t1" one_task_world (sample_task "t1" "PENDING" "LOW")).
  reflexivity.
Defined.

(** ** X4: remove twice *)

(** X4. [remove] does not repeat: after a stored task was removed, a second
    [remove] of the same key fails with the repository's error and changes
    nothing, and [findOne] of the key returns [null]. *)
Theorem remove_twice_fails :
  forall (id : string) (w : World) (row : Task.t),
    Repository.row_of id (store w) = Some row ->
    TasksService.remove id (snd (TasksService.remove id w))
    = (Thrown MustBeEntityError, snd (TasksService.remove id w))
    /\ TasksService.findOne id (snd (TasksService.remove id w))
       = (Returned None, snd (TasksService.remove id w)).
Proof.
  intros id w row Hrow.
  pose proof (remove_present_gone id w row Hrow) as Hgone.
  split; [now apply remove_absent | now apply findOne_absent].
Qed.

Lemma remove_twice_fails_witness :
  TasksService.remove "t1" (snd (TasksService.remove "t1" one_task_world))
  = (Thrown MustBeEntityError, snd (TasksService.remove "t1" one_task_world))
  /\ TasksService.findOne "t1" (snd (TasksService.remove "t1" one_task_world))
     = (Returned None, snd (TasksService.remove "t1" one_task_world)).
Proof.
  apply (remove_twice_fails "t1" one_task_world (sample_task "t1" "PENDING" "LOW")).
  reflexivity.
Defined.

(** ** X5: create, then look up *)

(** X5. When the generated key is not yet in the table, [findOne] of that
    key after [create] returns the created task with its owner attached,
    and every task stored before is still found under its key. *)
Theorem create_then_findOne :
  forall (newId defaultStatus : string) (dto : CreateTaskDto.t) (w : World),
    Repository.row_of newId (store w) = None ->
    fst (TasksService.findOne newId (snd (TasksService.create newId defaultStatus dto w)))
    = Returned (Some (Repository.with_user (store w)
                        (Repository.new_entity newId defaultStatus dto)))
    /\ (forall (k : string) (row : Task.t),
           Repository.row_of k (store w) = Some row ->
           Repository.row_of k (store (snd (TasksService.create newId defaultStatus dto w)))
           = Some row).
Proof.
  intros newId defaultStatus dto w Hfresh. split.
  - rewrite findOne_run. cbn [fst]. unfold Repository.row_of. simpl.
    rewrite (find_key_snoc_fresh newId (tasks (store w))) by (auto; reflexivity).
    reflexivity.
  - intros k row Hrow. unfold Repository.row_of. simpl.
    now apply find_key_snoc_kept.
Qed.

Lemma create_then_findOne_witness :
  fst (TasksService.findOne "t2"
         (snd (TasksService.create "t2" "PENDING"
                 (CreateTaskDto.mk "write" "docs" "HIGH" None "u1") one_task_world)))
  = Returned (Some (Repository.with_user (store one_task_world)
                      (Repository.new_entity "t2" "PENDING"
                         (CreateTaskDto.mk "write" "docs" "HIGH" None "u1"))))
  /\ (forall (k : string) (row : Task.t),
         Repository.row_of k (store one_task_world) = Some row ->
         Repository.row_of k
           (store (snd (TasksService.create "t2" "PENDING"
                          (CreateTaskDto.mk "write" "docs" "HIGH" None "u1") one_task_world)))
         = Some row).
Proof.
  apply (create_then_findOne "t2" "PENDING"
           (CreateTaskDto.mk "write" "docs" "HIGH" None "u1") one_task_world).
  reflexivity.
Defined.

(** ** What getMany can answer *)

Lemma apply_skip_sub (n : option Z) (l rest : list Task.t) (x : Task.t) :
  Repository.apply_skip n l = Some rest -> In x rest -> In x l.
Proof.
  unfold Repository.apply_skip. destruct n as [z|].
  - destruct (Repository.in_bigint z); [|discriminate].
    intros H; injection H as <-. apply In_skipn.
  - intros H; injection H as <-. auto.
Qed.

Lemma apply_take_sub (d : Driver) (n : option Z) (l page : list Task.t) (x : Task.t) :
  Repository.apply_take d n l = Some page -> In x page -> In x l.
Proof.
  unfold Repository.apply_take. destruct n as [z|].
  - destruct (Repository.in_bigint z); [|discriminate].
    destruct (z =? 0)%Z.
    + destruct (limit_zero_unbounded d); intros H; injection H as <-; [auto | intros []].
    + intros H; injection H as <-. apply In_firstn.
  - intros H; injection H as <-. auto.
Qed.

Lemma apply_take_bound (d : Driver) (z : Z) (l page : list Task.t) :
  (0 < z)%Z ->
  Repository.apply_take d (Some z) l = Some page ->
  (length page <= Z.to_nat z)%nat.
Proof.
  intros Hz. unfold Repository.apply_take.
  destruct (Repository.in_bigint z); [|discriminate].
  assert (E : (z =? 0)%Z = false) by (apply Z.eqb_neq; lia).
  rewrite E. intros H; injection H as <-. apply firstn_le_length.
Qed.

(** Every entity answered is one of the given rows with its owner attached. *)
Lemma paged_answer_sound
  (st : Store) (rows : list Task.t) (off : Z) (lim : option Z) (found : list Task.t) :
  paged_answer st rows off lim = Returned found ->
  forall t, In t found -> exists row, In row rows /\ t = Repository.with_user st row.
Proof.
  unfold paged_answer. intros H t Ht.
  destruct (Repository.apply_skip _ _) as [rest|] eqn:Hs; [|discriminate].
  destruct (Repository.apply_take _ _ _) as [page|] eqn:Ht'; [|discriminate].
  injection H as <-.
  apply in_map_iff in Ht. destruct Ht as [row [<- Hin]].
  exists row. split; [|reflexivity].
  assert (Hpage : In row page).
  { destruct (negb (off =? 0)%Z || Repository.set_nonzero lim); [|exact Hin].
    exact (Permutation_in _ (as_returned_perm st page) Hin). }
  pose proof (apply_skip_sub _ _ _ _ Hs (apply_take_sub _ _ _ _ _ Ht' Hpage)) as Hc.
  destruct (negb (off =? 0)%Z || Repository.set_nonzero lim); [|exact Hc].
  exact (Permutation_in _ (by_key_perm rows) Hc).
Qed.

Lemma paged_answer_bound
  (st : Store) (rows : list Task.t) (off l : Z) (found : list Task.t) :
  (0 < l)%Z ->
  paged_answer st rows off (Some l) = Returned found ->
  (length found <= Z.to_nat l)%nat.
Proof.
  unfold paged_answer. intros Hl H.
  destruct (Repository.apply_skip _ _) as [rest|] eqn:Hs; [|discriminate].
  destruct (Repository.apply_take _ _ _) as [page|] eqn:Ht; [|discriminate].
  injection H as <-. rewrite length_map.
  pose proof (apply_take_bound _ _ _ _ Hl Ht) as Hb.
  match goal with
  | |- context [if ?b then _ else _] => destruct b
  end; [|exact Hb].
  now rewrite (Permutation_length (as_returned_perm st page)).
Qed.

(** ** X6: what findAll returns *)

(** X6. Whatever the arguments, every task [findAll] returns is a stored
    row with its owner attached, and it passes both filters: its status is
    the requested one unless that filter is absent or empty, and likewise
    its priority. *)
Theorem findAll_returns_matching_rows :
  forall (status priority : option string) (page limit : option number)
         (w : World) (found : list Task.t),
    fst (TasksService.findAll status priority page limit w) = Returned found ->
    Forall (fun t =>
              selected status priority t = true
              /\ exists row, In row (tasks (store w))
                             /\ t = Repository.with_user (store w) row)
           found.
Proof.
  intros status priority page limit w found H.
  rewrite findAll_closed_form in H. cbn [fst] in H.
  assert (Hans : exists lim,
             paged_answer (store w) (filter (selected status priority) (tasks (store w)))
               (offset_of page limit) lim = Returned found).
  { destruct limit as [[|l]|]; [discriminate | now exists (Some l) | now exists None]. }
  destruct Hans as [lim Hans].
  apply Forall_forall. intros t Ht.
  destruct (paged_answer_sound _ _ _ _ _ Hans t Ht) as [row [Hin ->]].
  apply filter_In in Hin. destruct Hin as [Hin Hsel].
  split; [exact Hsel | exists row; split; [exact Hin | reflexivity]].
Qed.

Lemma findAll_returns_matching_rows_witness :
  Forall (fun t =>
            selected (Some "COMPLETED") (Some "") t = true
            /\ exists row, In row (tasks (store six_task_world))
                           /\ t = Repository.with_user (store six_task_world) row)
         (map (Repository.with_user (store six_task_world))
            [sample_task "b" "COMPLETED" "LOW"]).
Proof.
  apply (findAll_returns_matching_rows (Some "COMPLETED") (Some "")
           (Some (Num 2)) (Some (Num 1)) six_task_world).
  reflexivity.
Defined.

(** ** X7: filtered pages *)



(** ** X8: the page size bounds the answer *)

(** X8. When the limit is a positive number, [findAll] never returns more
    than [limit] tasks, whatever the page and the filters. *)
Theorem findAll_length_at_most_limit :
  forall (status priority : option string) (page : option number) (l : Z)
         (w : World) (found : list Task.t),
    (0 < l)%Z ->
    fst (TasksService.findAll status priority page (Some (Num l)) w) = Returned found ->
    (length found <= Z.to_nat l)%nat.
Proof.
  intros status priority page l w found Hl H.
  rewrite findAll_closed_form in H. cbn [fst] in H.
  exact (paged_answer_bound _ _ _ _ _ Hl H).
Qed.

Lemma findAll_length_at_most_limit_witness :
  (length (map (Repository.with_user (store (numbered_world 25)))
             (firstn 7 (tasks (store (numbered_world 25))))) <= Z.to_nat 7)%nat.
Proof.
  apply (findAll_length_at_most_limit None None None 7 (numbered_world 25)).
  - lia.
  - reflexivity.
Defined.

(** ** X9: a page past the end *)



(** ** X10: consecutive pages *)



(** ** X11: a page that is 0, NaN or omitted *)

(** X11. A page that is omitted, [NaN] or [0] is read as page 1: for every
    filter, limit and store [findAll] answers as it does for page 1. *)
Theorem findAll_falsy_page_is_first_page :
  forall (status priority : option string) (limit : option number) (w : World),
    TasksService.findAll status priority None limit w
    = TasksService.findAll status priority (Some (Num 1)) limit w
    /\ TasksService.findAll status priority (Some NaN) limit w
       = TasksService.findAll status priority (Some (Num 1)) limit w
    /\ TasksService.findAll status priority (Some (Num 0)) limit w
       = TasksService.findAll status priority (Some (Num 1)) limit w.
Proof.
  intros status priority limit w.
  rewrite !findAll_closed_form.
  split; [|split]; reflexivity.
Qed.

(** ** X12: findByStatus and the status filter of findAll *)

(** X12. [findByStatus] returns the stored rows of the given status, in
    store order and without their owner.  For a status that is not empty,
    [findAll] with only that status filter returns the same rows with the
    owner attached; for the empty status [findAll] applies no filter and
    returns every task, where [findByStatus] returns the rows whose status
    is empty. *)
Theorem findByStatus_and_findAll_filter :
  forall (status : string) (w : World),
    TasksService.findByStatus status w
    = (Returned (filter (fun r => Task.status r =? status) (tasks (store w))), w)
    /\ (status <> "" ->
        TasksService.findAll (Some status) None None None w
        = (Returned (map (Repository.with_user (store w))
                       (filter (fun r => Task.status r =? status) (tasks (store w)))),
           w))
    /\ TasksService.findAll (Some "") None None None w
       = (Returned (map (Repository.with_user (store w)) (tasks (store w))), w).
Proof.
  intros status w. split; [reflexivity|]. split.
  - intros Hs. rewrite findAll_closed_form. unfold paged_answer. simpl. do 3 f_equal.
    apply filter_ext. intros r. unfold selected, filter_ok.
    apply String.eqb_neq in Hs. rewrite Hs. simpl. now rewrite andb_true_r.
  - rewrite findAll_closed_form. unfold paged_answer. simpl. do 3 f_equal.
    apply filter_true.
Qed.

Lemma findByStatus_and_findAll_filter_witness :
  TasksService.findByStatus "IN_PROGRESS" six_task_world
  = (Returned (filter (fun r => Task.status r =? "IN_PROGRESS") (tasks (store six_task_world))),
     six_task_world)
  /\ TasksService.findAll (Some "IN_PROGRESS") None None None six_task_world
     = (Returned (map (Repository.with_user (store six_task_world))
                    (filter (fun r => Task.status r =? "IN_PROGRESS")
                       (tasks (store six_task_world)))),
        six_task_world)
  /\ TasksService.findAll (Some "") None None None six_task_world
     = (Returned (map (Repository.with_user (store six_task_world))
                    (tasks (store six_task_world))),
        six_task_world).
Proof.
  destruct (findByStatus_and_findAll_filter "IN_PROGRESS" six_task_world) as [H1 [H2 H3]].
  split; [exact H1|]. split; [|exact H3].
  apply H2. discriminate.
Defined.

(** ** X13: the statistics add up *)

Lemma findTasksStatistics_run (w : World) :
  TasksService.findTasksStatistics w
  = (Returned
       (TasksService.mkStatistics
          (Z.of_nat (length (tasks (store w))))
          (count_where (fun t => Task.status t =? "COMPLETED") (tasks (store w)))
          (count_where (fun t => Task.status t =? "IN_PROGRESS") (tasks (store w)))
          (count_where (fun t => Task.status t =? "PENDING") (tasks (store w)))
          (count_where (fun t => Task.priority t =? "HIGH") (tasks (store w)))),
     w).
Proof.
  unfold TasksService.findTasksStatistics, bind, Repository.getRawOne_statistics, ret.
  cbn [Repository.raw_total Repository.raw_completed Repository.raw_inProgress
       Repository.raw_pending Repository.raw_highPriority].
  now rewrite !Number_sql_sum.
Qed.

Lemma count_three_way (p q r : Task.t -> bool) (rows : list Task.t) :
  (forall t, In t rows ->
             (p t = true \/ q t = true \/ r t = true)
             /\ (p t && q t = false) /\ (p t && r t = false) /\ (q t && r t = false)) ->
  (count_where p rows + count_where q rows + count_where r rows
   = Z.of_nat (length rows))%Z.
Proof.
  unfold count_where. induction rows as [|t rows IH]; intros H; [reflexivity|].
  destruct (H t (or_introl eq_refl)) as [Hor [Hpq [Hpr Hqr]]].
  assert (IH' := IH (fun x Hx => H x (or_intror Hx))).
  cbn [filter length].
  destruct (p t), (q t), (r t); simpl in Hpq, Hpr, Hqr; try discriminate;
    cbn [length]; try lia.
Qed.

Lemma count_at_most_length (p : Task.t -> bool) (rows : list Task.t) :
  (0 <= count_where p rows <= Z.of_nat (length rows))%Z.
Proof.
  unfold count_where. pose proof (filter_length_le p rows). lia.
Qed.

(** X13. The figures of [findTasksStatistics] are consistent: no count is
    negative or above the total, and when every stored status is one of
    PENDING, IN_PROGRESS, COMPLETED the three status counts add up to the
    total. *)
Theorem findTasksStatistics_adds_up :
  forall (w : World) (s : TasksService.Statistics),
    fst (TasksService.findTasksStatistics w) = Returned s ->
    (0 <= TasksService.completed s <= TasksService.total s)%Z
    /\ (0 <= TasksService.inProgress s <= TasksService.total s)%Z
    /\ (0 <= TasksService.pending s <= TasksService.total s)%Z
    /\ (0 <= TasksService.highPriority s <= TasksService.total s)%Z
    /\ (forallb (fun t => is_status (Task.status t)) (tasks (store w)) = true ->
        (TasksService.completed s + TasksService.inProgress s + TasksService.pending s
         = TasksService.total s)%Z).
Proof.
  intros w s H.
  rewrite findTasksStatistics_run in H. cbn [fst] in H. injection H as <-.
  cbn [TasksService.total TasksService.completed TasksService.inProgress
       TasksService.pending TasksService.highPriority].
  repeat (split; [apply count_at_most_length|]).
  intros Hall. apply count_three_way.
  intros t Ht. rewrite forallb_forall in Hall. specialize (Hall t Ht).
  unfold is_status in Hall.
  destruct (Task.status t =? "COMPLETED") eqn:Ec,
           (Task.status t =? "IN_PROGRESS") eqn:Ei,
           (Task.status t =? "PENDING") eqn:Ep;
    simpl in *; try discriminate; try (repeat split; auto; fail);
    apply String.eqb_eq in Ec || idtac;
    apply String.eqb_eq in Ei || idtac;
    apply String.eqb_eq in Ep || idtac;
    congruence.
Qed.

Lemma findTasksStatistics_adds_up_witness :
  (0 <= TasksService.completed (TasksService.mkStatistics 6 3 2 1 2)
   <= TasksService.total (TasksService.mkStatistics 6 3 2 1 2))%Z
  /\ (0 <= TasksService.inProgress (TasksService.mkStatistics 6 3 2 1 2)
      <= TasksService.total (TasksService.mkStatistics 6 3 2 1 2))%Z
  /\ (0 <= TasksService.pending (TasksService.mkStatistics 6 3 2 1 2)
      <= TasksService.total (TasksService.mkStatistics 6 3 2 1 2))%Z
  /\ (0 <= TasksService.highPriority (TasksService.mkStatistics 6 3 2 1 2)
      <= TasksService.total (TasksService.mkStatistics 6 3 2 1 2))%Z
  /\ (forallb (fun t => is_status (Task.status t)) (tasks (store six_task_world)) = true ->
      (TasksService.completed (TasksService.mkStatistics 6 3 2 1 2)
       + TasksService.inProgress (TasksService.mkStatistics 6 3 2 1 2)
       + TasksService.pending (TasksService.mkStatistics 6 3 2 1 2)
       = TasksService.total (TasksService.mkStatistics 6 3 2 1 2))%Z).
Proof.
  apply (findTasksStatistics_adds_up six_task_world (TasksService.mkStatistics 6 3 2 1 2)).
  reflexivity.
Defined.

(** ** update and updateStatus on the table *)

Lemma hits_copy (e : Task.t) : Repository.hits e (Task.set_user None e) = true.
Proof. unfold Repository.hits. simpl. apply String.eqb_refl. Qed.

Lemma filter_twice {A} (f : A -> bool) (l : list A) :
  filter f (filter f l) = filter f l.
Proof.
  induction l as [|a l IH]; simpl; [reflexivity|].
  destruct (f a) eqn:E; simpl; [rewrite E, IH|]; auto.
Qed.

Lemma filter_of_rejected {A} (f : A -> bool) (l : list A) :
  filter f (filter (fun a => negb (f a)) l) = [].
Proof.
  induction l as [|a l IH]; simpl; [reflexivity|].
  destruct (f a) eqn:E; simpl; [|rewrite E]; auto.
Qed.

Lemma filter_copies (e : Task.t) (l : list Task.t) :
  filter (Repository.hits e) (map (fun _ => Task.set_user None e) l)
  = map (fun _ => Task.set_user None e) l
  /\ filter (fun r => negb (Repository.hits e r)) (map (fun _ => Task.set_user None e) l)
     = [].
Proof.
  induction l as [|a l [IH1 IH2]]; simpl; [split; reflexivity|].
  rewrite hits_copy. simpl. now rewrite IH1, IH2.
Qed.

(** Writing the same entity again leaves the table as the first write left it. *)
Lemma written_twice (e : Task.t) (rows : list Task.t) :
  Repository.written e (Repository.written e rows)
  = Repository.written e rows.
Proof.
  unfold Repository.written.
  destruct (filter_copies e (filter (Repository.hits e) rows)) as [Hc1 Hc2].
  rewrite !filter_app, Hc1, Hc2, filter_twice, app_nil_r.
  rewrite (filter_of_rejected (Repository.hits e)). simpl.
  now rewrite map_map.
Qed.

Lemma filter_split_perm {A} (f : A -> bool) (l : list A) :
  Permutation (filter (fun a => negb (f a)) l ++ filter f l) l.
Proof.
  induction l as [|a l IH]; simpl; [constructor|].
  destruct (f a); simpl.
  - apply Permutation_sym, Permutation_cons_app, Permutation_sym, IH.
  - now apply perm_skip.
Qed.

Lemma patched_twice (v : option string) (old : string) :
  patched v (patched v old) = patched v old.
Proof.
  destruct v as [s|]; simpl; [|reflexivity].
  destruct (s =? "") eqn:E; simpl; rewrite ?E; reflexivity.
Qed.

Lemma patched_opt_twice (v : option string) (old : option string) :
  patched_opt v (patched_opt v old) = patched_opt v old.
Proof.
  destruct v as [s|]; simpl; [|reflexivity].
  destruct (s =? "") eqn:E; simpl; rewrite ?E; reflexivity.
Qed.

Lemma assign_twice (dto : UpdateTaskDto.t) (t : Task.t) :
  TasksService.assign dto (TasksService.assign dto t) = TasksService.assign dto t.
Proof.
  rewrite (assign_fields dto t), assign_fields. simpl.
  now rewrite !patched_twice, patched_opt_twice.
Qed.

(** Reloading what [update] wrote gives back what [update] returned. *)
Lemma reload_assigned (dto : UpdateTaskDto.t) (st : Store) (rows : list Task.t) (row : Task.t) :
  Repository.with_user (mkStore rows (users st) (driver st))
    (Task.set_user None (TasksService.assign dto (Repository.with_user st row)))
  = TasksService.assign dto (Repository.with_user st row).
Proof.
  rewrite assign_fields. reflexivity.
Qed.

(** ** X14: the same patch twice *)

(** X14. Repeating an [update] changes nothing more: after an [update] of a
    stored task, the same [update] again returns the same task and leaves
    the store and the queue exactly as the first one left them, so the
    second call requests no job. *)
Theorem update_same_patch_twice :
  forall (id : string) (dto : UpdateTaskDto.t) (w : World) (row : Task.t),
    Repository.row_of id (store w) = Some row ->
    TasksService.update id dto (snd (TasksService.update id dto w))
    = (fst (TasksService.update id dto w), snd (TasksService.update id dto w)).
Proof.
  intros id dto w row Hrow.
  pose proof (row_of_key _ _ _ Hrow) as Hid.
  rewrite (update_run id dto w row Hrow). cbn [fst snd].
  remember (TasksService.assign dto (Repository.with_user (store w) row)) as u eqn:Hdef.
  assert (Hu : Task.id u = id) by (rewrite Hdef, assign_fields; exact Hid).
  match goal with
  | |- TasksService.update _ _ ?w1 = _ => set (w1' := w1)
  end.
  assert (Hrow1 : Repository.row_of id (store w1') = Some (Task.set_user None u)).
  { unfold Repository.row_of; simpl. rewrite <- Hu.
    apply (find_written_same u (tasks (store w)) row).
    rewrite Hu. exact Hrow. }
  rewrite (update_run id dto w1' _ Hrow1).
  assert (Hre : Repository.with_user (store w1') (Task.set_user None u) = u).
  { rewrite Hdef. apply reload_assigned. }
  rewrite Hre.
  assert (Hau : TasksService.assign dto u = u) by (rewrite Hdef; apply assign_twice).
  rewrite Hau.
  change (Task.status (Task.set_user None u)) with (Task.status u).
  rewrite String.eqb_refl.
  unfold w1'. cbn [store queue tasks users].
  now rewrite written_twice.
Qed.

Lemma update_same_patch_twice_witness :
  TasksService.update "t1" (UpdateTaskDto.mk (Some "renamed") None (Some "COMPLETED") None None)
    (snd (TasksService.update "t1"
            (UpdateTaskDto.mk (Some "renamed") None (Some "COMPLETED") None None)
            one_task_world))
  = (fst (TasksService.update "t1"
            (UpdateTaskDto.mk (Some "renamed") None (Some "COMPLETED") None None)
            one_task_world),
     snd (TasksService.update "t1"
            (UpdateTaskDto.mk (Some "renamed") None (Some "COMPLETED") None None)
            one_task_world)).
Proof.
  apply (update_same_patch_twice "t1"
           (UpdateTaskDto.mk (Some "renamed") None (Some "COMPLETED") None None)
           one_task_world (sample_task "t1" "PENDING" "LOW")).
  reflexivity.
Defined.

(** A write keeps the keys of the table, up to their order. *)
Lemma written_keys (e : Task.t) (rows : list Task.t) :
  Permutation (map Task.id (Repository.written e rows)) (map Task.id rows).
Proof.
  unfold Repository.written. rewrite map_app, map_map.
  replace (map (fun _ => Task.id (Task.set_user None e)) (filter (Repository.hits e) rows))
    with (map Task.id (filter (Repository.hits e) rows)).
  - rewrite <- map_app. apply Permutation_map, filter_split_perm.
  - apply map_ext_in. intros r Hr. apply filter_In in Hr. destruct Hr as [_ Hr].
    unfold Repository.hits in Hr. apply String.eqb_eq in Hr. exact Hr.
Qed.

Lemma update_keys (id : string) (dto : UpdateTaskDto.t) (w : World) :
  Permutation (map Task.id (tasks (store (snd (TasksService.update id dto w)))))
              (map Task.id (tasks (store w))).
Proof.
  destruct (Repository.row_of id (store w)) as [row|] eqn:Hrow.
  - rewrite (update_run id dto w row Hrow). apply written_keys.
  - unfold TasksService.update, bind. rewrite findOne_run, Hrow. apply Permutation_refl.
Qed.

Lemma updateStatus_keys (id status : string) (w : World) :
  Permutation (map Task.id (tasks (store (snd (TasksService.updateStatus id status w)))))
              (map Task.id (tasks (store w))).
Proof.
  destruct (Repository.row_of id (store w)) as [row|] eqn:Hrow.
  - rewrite (updateStatus_run id status w row Hrow). apply written_keys.
  - unfold TasksService.updateStatus, bind. rewrite findOne_run, Hrow.
    apply Permutation_refl.
Qed.

(** ** X15: keys are never rewritten *)

(** X15. [update] and [updateStatus] never add, drop or rename a row: the
    keys of the table after the call are the keys before it, each as often
    as before, for every key, patch and status.  (Their order in a scan of
    the table is the store's: a written row is met last.) *)
Theorem update_and_updateStatus_keep_keys :
  forall (id : string) (w : World),
    (forall dto,
        Permutation (map Task.id (tasks (store (snd (TasksService.update id dto w)))))
                    (map Task.id (tasks (store w))))
    /\ (forall status,
           Permutation
             (map Task.id (tasks (store (snd (TasksService.updateStatus id status w)))))
             (map Task.id (tasks (store w)))).
Proof.
  intros id w. split; intros x.
  - apply update_keys.
  - apply updateStatus_keys.
Qed.

(** A written row is met last by a scan of the table. *)
Example update_moves_the_row_last :
  map Task.id
    (tasks (store (serve (Update "A" (UpdateTaskDto.mk (Some "renamed") None None None None))
                     (numbered_world 3))))
  = ["B"; "C"; "A"].
Proof. reflexivity. Qed.

(** ** What a request can do to the users and to the queue *)

(** The world after [update], in both cases of the lookup. *)
Lemma update_world (id : string) (dto : UpdateTaskDto.t) (w : World) :
  snd (TasksService.update id dto w)
  = match Repository.row_of id (store w) with
    | None => w
    | Some row =>
        mkWorld
          (mkStore
             (Repository.written
                     (TasksService.assign dto (Repository.with_user (store w) row))
                (tasks (store w)))
             (users (store w)) (driver (store w)))
          (if Task.status row
              =? Task.status (TasksService.assign dto (Repository.with_user (store w) row))
           then queue w
           else queue_after_add
                  (Job.mk "task-status-update" id
                     (Task.status
                        (TasksService.assign dto (Repository.with_user (store w) row))))
                  (queue w))
    end.
Proof.
  destruct (Repository.row_of id (store w)) as [row|] eqn:Hrow.
  - now rewrite (update_run id dto w row Hrow).
  - unfold TasksService.update, bind. now rewrite findOne_run, Hrow.
Qed.

Lemma updateStatus_world (id status : string) (w : World) :
  snd (TasksService.updateStatus id status w)
  = match Repository.row_of id (store w) with
    | None => w
    | Some row =>
        mkWorld
          (mkStore
             (Repository.written
                     (Task.set_status status (Repository.with_user (store w) row))
                (tasks (store w)))
             (users (store w)) (driver (store w)))
          (queue w)
    end.
Proof.
  destruct (Repository.row_of id (store w)) as [row|] eqn:Hrow.
  - now rewrite (updateStatus_run id status w row Hrow).
  - unfold TasksService.updateStatus, bind. now rewrite findOne_run, Hrow.
Qed.

Lemma remove_world (id : string) (w : World) :
  snd (TasksService.remove id w)
  = match Repository.row_of id (store w) with
    | None => w
    | Some row =>
        mkWorld (mkStore (filter (fun r => negb (Task.id r =? id)) (tasks (store w)))
                         (users (store w)) (driver (store w)))
                (queue w)
    end.
Proof.
  destruct (Repository.row_of id (store w)) as [row|] eqn:Hrow.
  - now rewrite (remove_present id w row Hrow).
  - now rewrite (remove_absent id w Hrow).
Qed.

(** ** X16: the users *)

(** X16. No request of the service changes the users: whatever the request
    and its outcome, the users after it are the users before it. *)
Theorem no_request_changes_users :
  forall (r : Request) (w : World), users (store (serve r w)) = users (store w).
Proof.
  intros r w. destruct r as [k d dto|s p pg l| |k|k dto|k|s|k s]; simpl serve.
  - reflexivity.
  - now rewrite findAll_read_only.
  - reflexivity.
  - reflexivity.
  - rewrite update_world. destruct (Repository.row_of k (store w)); reflexivity.
  - rewrite remove_world. destruct (Repository.row_of k (store w)); reflexivity.
  - reflexivity.
  - rewrite updateStatus_world. destruct (Repository.row_of k (store w)); reflexivity.
Qed.

(** ** X17: the queue only grows, one job at a time *)

Lemma same_queue_no_job (w w' : World) :
  queue w' = queue w ->
  exists extra : list Job.t,
    (length extra <= 1)%nat
    /\ Forall (fun j => Job.name j = "task-status-update") extra
    /\ requested (queue w') = requested (queue w) ++ extra
    /\ jobs (queue w') = jobs (queue w) ++ (if accepting (queue w) then extra else [])
    /\ accepting (queue w') = accepting (queue w).
Proof.
  intros H. exists []. rewrite H.
  split; [simpl; lia|]. split; [constructor|].
  split; [now rewrite app_nil_r|]. split; [|reflexivity].
  destruct (accepting (queue w)); now rewrite app_nil_r.
Qed.

Lemma one_more_job (j : Job.t) (w w' : World) :
  Job.name j = "task-status-update" ->
  queue w' = queue_after_add j (queue w) ->
  exists extra : list Job.t,
    (length extra <= 1)%nat
    /\ Forall (fun j => Job.name j = "task-status-update") extra
    /\ requested (queue w') = requested (queue w) ++ extra
    /\ jobs (queue w') = jobs (queue w) ++ (if accepting (queue w) then extra else [])
    /\ accepting (queue w') = accepting (queue w).
Proof.
  intros Hj H. exists [j]. rewrite H. unfold queue_after_add. simpl.
  split; [lia|]. split; [now constructor|]. split; [reflexivity|].
  split; [|reflexivity].
  destruct (accepting (queue w)); [reflexivity | now rewrite app_nil_r].
Qed.

(** X17. Serving one request never drops, reorders or rewrites what the
    queue already holds and never changes whether it accepts: the jobs
    requested afterwards are those before followed by at most one new job,
    named task-status-update, and that job joins the accepted jobs exactly
    when the queue accepts. *)
Theorem each_request_adds_at_most_one_job :
  forall (r : Request) (w : World),
    exists extra : list Job.t,
      (length extra <= 1)%nat
      /\ Forall (fun j => Job.name j = "task-status-update") extra
      /\ requested (queue (serve r w)) = requested (queue w) ++ extra
      /\ jobs (queue (serve r w))
         = jobs (queue w) ++ (if accepting (queue w) then extra else [])
      /\ accepting (queue (serve r w)) = accepting (queue w).
Proof.
  intros r w. destruct r as [k d dto|s p pg l| |k|k dto|k|s|k s]; simpl serve.
  - apply (one_more_job (Job.mk "task-status-update" k d)); reflexivity.
  - apply same_queue_no_job. now rewrite findAll_read_only.
  - now apply same_queue_no_job.
  - now apply same_queue_no_job.
  - rewrite update_world. destruct (Repository.row_of k (store w)) as [row|].
    + destruct (Task.status row =? _).
      * now apply same_queue_no_job.
      * eapply one_more_job; [|reflexivity]. reflexivity.
    + now apply same_queue_no_job.
  - apply same_queue_no_job. apply remove_keeps_queue.
  - now apply same_queue_no_job.
  - apply same_queue_no_job. apply updateStatus_keeps_queue.
Qed.

(** ** X18: updateStatus and update with a status-only patch *)

Lemma assign_status_only (status : string) (t : Task.t) :
  status <> "" ->
  TasksService.assign (UpdateTaskDto.mk None None (Some status) None None) t
  = Task.set_status status t.
Proof.
  intros H. apply String.eqb_neq in H.
  unfold TasksService.assign, TasksService.when_truthy, truthy. simpl.
  now rewrite H.
Qed.

(** X18. For a status that is not empty, [updateStatus] answers and stores
    exactly what [update] with a patch of that status alone does; the two
    can differ only in the queue, which [updateStatus] never touches.  (For
    the empty status they differ: [updateStatus] stores it, [update] skips
    it.) *)
Theorem updateStatus_agrees_with_status_patch :
  forall (id status : string) (w : World),
    status <> "" ->
    fst (TasksService.updateStatus id status w)
    = fst (TasksService.update id (UpdateTaskDto.mk None None (Some status) None None) w)
    /\ store (snd (TasksService.updateStatus id status w))
       = store (snd (TasksService.update id
                       (UpdateTaskDto.mk None None (Some status) None None) w))
    /\ queue (snd (TasksService.updateStatus id status w)) = queue w.
Proof.
  intros id status w Hs.
  split; [|split; [|apply updateStatus_keeps_queue]].
  - destruct (Repository.row_of id (store w)) as [row|] eqn:Hrow.
    + rewrite (updateStatus_run id status w row Hrow), (update_run _ _ w row Hrow).
      cbn [fst]. now rewrite assign_status_only.
    + unfold TasksService.updateStatus, TasksService.update, bind.
      now rewrite findOne_run, Hrow.
  - rewrite updateStatus_world, update_world.
    destruct (Repository.row_of id (store w)) as [row|]; [|reflexivity].
    now rewrite assign_status_only.
Qed.

Lemma updateStatus_agrees_with_status_patch_witness :
  fst (TasksService.updateStatus "t1" "COMPLETED" one_task_world)
  = fst (TasksService.update "t1" (UpdateTaskDto.mk None None (Some "COMPLETED") None None)
           one_task_world)
  /\ store (snd (TasksService.updateStatus "t1" "COMPLETED" one_task_world))
     = store (snd (TasksService.update "t1"
                     (UpdateTaskDto.mk None None (Some "COMPLETED") None None)
                     one_task_world))
  /\ queue (snd (TasksService.updateStatus "t1" "COMPLETED" one_task_world))
     = queue one_task_world.
Proof.
  apply (updateStatus_agrees_with_status_patch "t1" "COMPLETED" one_task_world).
  discriminate.
Defined.

(** The empty status: stored by [updateStatus], skipped by [update]. *)
Example updateStatus_empty_status :
  map Task.status (tasks (store (serve (UpdateStatus "t1" "") one_task_world))) = [""]
  /\ map Task.status
       (tasks (store (serve (Update "t1" (UpdateTaskDto.mk None None (Some "") None None))
                        one_task_world)))
     = ["PENDING"].
Proof. split; reflexivity. Qed.

(** ** X19: keys stay unique *)

Lemma no_row_no_key (k : string) (rows : list Task.t) :
  find (fun r => Task.id r =? k) rows = None -> ~ In k (map Task.id rows).
Proof.
  intros Hnone Hin. apply in_map_iff in Hin. destruct Hin as [r [Hr Hin]].
  apply (find_none _ _ Hnone) in Hin. simpl in Hin.
  apply String.eqb_neq in Hin. contradiction.
Qed.

Lemma NoDup_keys_filter (p : Task.t -> bool) (rows : list Task.t) :
  NoDup (map Task.id rows) -> NoDup (map Task.id (filter p rows)).
Proof.
  induction rows as [|r rows IH]; simpl; intros H; [constructor|].
  inversion H as [|k ks Hnotin Hrest]; subst.
  destruct (p r); simpl; [|now apply IH].
  constructor; [|now apply IH].
  intros Hin. apply Hnotin.
  apply in_map_iff in Hin. destruct Hin as [x [Hx Hin]].
  apply filter_In in Hin. destruct Hin as [Hin _].
  apply in_map_iff. now exists x.
Qed.

(** X19. The service keeps the keys of the table unique: if no two rows
    share a key, then after any request (for [create], with a key the table
    does not hold yet) no two rows share a key. *)
Theorem requests_keep_keys_unique :
  forall (r : Request) (w : World),
    brings_new_key r w = true ->
    NoDup (keys w) ->
    NoDup (keys (serve r w)).
Proof.
  intros r w Hnew Hw. unfold keys in *.
  destruct r as [k d dto|s p pg l| |k|k dto|k|s|k s]; simpl serve.
  - simpl. rewrite map_app. simpl.
    simpl in Hnew.
    destruct (Repository.row_of k (store w)) eqn:Hrow; [discriminate|].
    apply NoDup_app; [exact Hw | repeat constructor; simpl; tauto |].
    intros x Hx [Hk|[]]. subst x.
    exact (no_row_no_key k _ Hrow Hx).
  - now rewrite findAll_read_only.
  - exact Hw.
  - exact Hw.
  - exact (Permutation_NoDup (Permutation_sym (update_keys k dto w)) Hw).
  - rewrite remove_world. destruct (Repository.row_of k (store w)); [|exact Hw].
    simpl. now apply NoDup_keys_filter.
  - exact Hw.
  - exact (Permutation_NoDup (Permutation_sym (updateStatus_keys k s w)) Hw).
Qed.

Lemma requests_keep_keys_unique_witness :
  NoDup (keys (serve (Create "t2" "PENDING" (CreateTaskDto.mk "write" "docs" "HIGH" None "u1"))
                 one_task_world)).
Proof.
  apply (requests_keep_keys_unique
           (Create "t2" "PENDING" (CreateTaskDto.mk "write" "docs" "HIGH" None "u1"))
           one_task_world).
  - reflexivity.
  - repeat constructor. simpl. tauto.
Defined.
